(** * Restaurant application backend: registration, login and the OTP
      password-reset flow

    Shallow embedding of the three variants of the Express/Mongoose server
    of the repository:

    - the OTP-capable server ([generateAndSendOtp], [/register], [/login],
      [/forgot-password], [/resend-otp], [/verify-otp], [/reset-password]);
    - the two earlier servers, whose [/register] and [/login] handlers are
      identical to each other (module [Legacy]).

    JavaScript values are modelled as far as the handlers inspect them,
    strings are ASCII strings, instants are integers (milliseconds since the
    epoch), and the effects of a handler (database, mail transport, clock,
    random generator) are threaded through a state-and-exception monad. *)

From Stdlib Require Import ZArith List String Ascii Bool Lia.
Import ListNotations.

Local Open Scope string_scope.
Local Open Scope Z_scope.

(** ** JavaScript values *)

(** A value of a parsed JSON request body, or [undefined] for a missing
    property.  [JObj] stands for any object or array: a freshly parsed one is
    a new reference, never identical to a stored value. *)
Inductive JsVal : Type :=
| JUndefined
| JNull
| JBool (b : bool)
| JNum (n : Z)
| JStr (s : string)
| JObj.

(** [a === b] (and [a !== b] as its negation). *)
Definition strict_eq (a b : JsVal) : bool :=
  match a, b with
  | JUndefined, JUndefined => true
  | JNull, JNull => true
  | JBool x, JBool y => Bool.eqb x y
  | JNum x, JNum y => Z.eqb x y
  | JStr x, JStr y => String.eqb x y
  | _, _ => false
  end.

(** A schema path of a Mongoose document: never assigned, assigned [null],
    or holding a value. *)
Inductive Field (A : Type) : Type :=
| Unset
| Null
| Val (a : A).
Arguments Unset {A}.
Arguments Null {A}.
Arguments Val {A} a.

Definition js_of_field (f : Field string) : JsVal :=
  match f with
  | Unset => JUndefined
  | Null => JNull
  | Val s => JStr s
  end.

(** Truthiness of a [Date] path: a [Date] object is always truthy. *)
Definition truthy_date (d : Field Z) : bool :=
  match d with
  | Val _ => true
  | _ => false
  end.

(** [d < now] for a [Date] path [d] and a number [now]: the date is
    converted to its time value, [null] to [0] and [undefined] to [NaN],
    which compares false. *)
Definition date_lt (d : Field Z) (now : Z) : bool :=
  match d with
  | Unset => false
  | Null => 0 <? now
  | Val t => t <? now
  end.

(** ** Strings *)

(** White space removed by [String.prototype.trim], within ASCII. *)
Definition is_space (c : ascii) : bool :=
  let n := nat_of_ascii c in
  ((9 <=? n)%nat && (n <=? 13)%nat) || (n =? 32)%nat.

Fixpoint trimStart (s : string) : string :=
  match s with
  | EmptyString => EmptyString
  | String c r => if is_space c then trimStart r else s
  end.

Fixpoint rev_append_string (s acc : string) : string :=
  match s with
  | EmptyString => acc
  | String c r => rev_append_string r (String c acc)
  end.

Definition rev_string (s : string) : string := rev_append_string s EmptyString.

Definition trim (s : string) : string :=
  rev_string (trimStart (rev_string (trimStart s))).

Definition lower_char (c : ascii) : ascii :=
  let n := nat_of_ascii c in
  if ((65 <=? n)%nat && (n <=? 90)%nat) then ascii_of_nat (n + 32) else c.

Fixpoint toLowerCase (s : string) : string :=
  match s with
  | EmptyString => EmptyString
  | String c r => String (lower_char c) (toLowerCase r)
  end.

(** [(x || '')] for a body property that is a string or missing. *)
Definition or_empty (x : option string) : string :=
  match x with
  | Some s => s
  | None => EmptyString
  end.

(** [(rawEmail || '').trim().toLowerCase()] *)
Definition normalize (rawEmail : option string) : string :=
  toLowerCase (trim (or_empty rawEmail)).

(** ** Numbers *)

Definition digit_char (d : Z) : ascii := ascii_of_nat (48 + Z.to_nat d).

Fixpoint digits_of (fuel : nat) (n : Z) (acc : string) : string :=
  match fuel with
  | O => acc
  | S f =>
      let acc' := String (digit_char (n mod 10)) acc in
      if n / 10 =? 0 then acc' else digits_of f (n / 10) acc'
  end.

(** [Number.prototype.toString] on an integer. *)
Definition Number_toString (n : Z) : string :=
  if n <? 0
  then String "-" (digits_of (S (Z.to_nat (Z.log2 (- n)))) (- n) EmptyString)
  else digits_of (S (Z.to_nat (Z.log2 n))) n EmptyString.

(** [Math.ceil(x / 1000)] for an integer [x]. *)
Definition ceil_div (x d : Z) : Z := - ((- x) / d).

(** Rounding of a positive integer to 53 significant bits, to nearest, ties
    to even: the rounding of IEEE 754 binary64 on a normal number, on the
    numerator of a dyadic fraction. *)
Definition round53 (N : Z) : Z :=
  let l := Z.log2 N in
  if l <=? 52 then N
  else
    let s := l - 52 in
    let q := N / 2 ^ s in
    let r := N mod 2 ^ s in
    let half := 2 ^ (s - 1) in
    if r <? half then q * 2 ^ s
    else if half <? r then (q + 1) * 2 ^ s
    else if Z.even q then q * 2 ^ s else (q + 1) * 2 ^ s.

(** [Math.floor(100000 + Math.random() * 900000)] where [Math.random()]
    returned the double [k / 2^53], [0 <= k < 2^53].  The product and the sum
    are each rounded to binary64; all numerators are over [2^53]. *)
Definition otp_number (k : Z) : Z :=
  let product := round53 (k * 900000) in
  let sum := round53 (100000 * 2 ^ 53 + product) in
  sum / 2 ^ 53.

(** ** Documents, requests and responses *)

(** A document of the [users] collection ([userSchema]).  In the two earlier
    servers the three OTP paths do not exist and stay [Unset]. *)
Record User : Type := mkUser {
  _id : nat;
  fullName : option string;
  username : option string;
  email : string;
  phone : option string;
  address : option string;
  password : string;
  otp : Field string;
  otpExpiry : Field Z;
  otpResendCooldown : Field Z
}.

(** [req.body].  The string properties are a string or missing; [otp] is
    compared as it arrives, so it keeps its JSON type. *)
Module body.
Record t : Type := mk {
  fullName : option string;
  username : option string;
  email : option string;
  phone : option string;
  address : option string;
  password : option string;
  otp : JsVal
}.
End body.

(** A thrown [Error], with its [message]. *)
Inductive Err : Type :=
| Error (message : string).

Definition err_message (e : Err) : string :=
  match e with
  | Error m => m
  end.

(** A plain object, as [toObject()] and JSON serialisation produce it: its
    own properties in order. *)
Inductive ObjVal : Type :=
| OId (n : nat)
| OStr (s : string)
| ODate (t : Z)
| ONum (n : Z)
| ONull.

Definition Obj : Type := list (string * ObjVal).

Definition prop_opt (key : string) (v : option string) : Obj :=
  match v with
  | Some s => [(key, OStr s)]
  | None => []
  end.

Definition prop_field {A : Type} (key : string) (inj : A -> ObjVal)
    (v : Field A) : Obj :=
  match v with
  | Unset => []
  | Null => [(key, ONull)]
  | Val a => [(key, inj a)]
  end.

(** [user.toObject()], also what [res.json] serialises for a document: the
    paths set when the document was created, the version key, then the OTP
    paths, which a later [save()] adds. *)
Definition toObject (u : User) : Obj :=
  ([("_id", OId (_id u))]
    ++ prop_opt "fullName" (fullName u)
    ++ prop_opt "username" (username u)
    ++ [("email", OStr (email u))]
    ++ prop_opt "phone" (phone u)
    ++ prop_opt "address" (address u)
    ++ [("password", OStr (password u))]
    ++ [("__v", ONum 0)]
    ++ prop_field "otp" OStr (otp u)
    ++ prop_field "otpExpiry" ODate (otpExpiry u)
    ++ prop_field "otpResendCooldown" ODate (otpResendCooldown u))%list.

(** [const { [key]: _, ...rest } = o] *)
Definition rest_without (key : string) (o : Obj) : Obj :=
  filter (fun kv => negb (String.eqb (fst kv) key)) o.

Definition has_key (key : string) (o : Obj) : bool :=
  existsb (fun kv => String.eqb (fst kv) key) o.

(** The response: status and the properties of the JSON body. *)
Record Response : Type := mkResponse {
  status : Z;
  message : string;
  user : option Obj;
  cooldown : option Z;
  error : option Err
}.

Definition json (st : Z) (msg : string) : Response :=
  mkResponse st msg None None None.

(** The message handed to [transporter.sendMail]; the HTML body is fixed
    text around the code. *)
Record Mail : Type := mkMail {
  to : string;
  subject : string;
  code : string
}.

(** ** The password hasher *)

(** [bcrypt.hash(password, 10)] with the salt it drew, and [bcrypt.compare]:
    a hash verifies the password it was made from, and is never the empty
    string. *)
Class Bcrypt : Type := {
  hash : string -> string -> string;
  compare : string -> string -> bool;
  compare_hash : forall p salt, compare p (hash p salt) = true;
  hash_nonempty : forall p salt, hash p salt <> EmptyString
}.

(** ** The world of a handler *)

(** What the handlers read from outside: successive readings of
    [Date.now()], successive results of [Math.random()] (as numerators over
    [2^53]), successive salts, and for each awaited database or mail
    operation whether it rejects. *)
Record Env : Type := mkEnv {
  clock : nat -> Z;
  random : nat -> Z;
  salts : nat -> string;
  fault : nat -> option Err
}.

(** The state the handlers act on: the [users] collection, the next fresh
    [_id], the log of the documents written by [save()], the messages
    accepted by the mail transport, and how many clock readings, random
    draws, salts and awaited operations were consumed so far. *)
Record World : Type := mkWorld {
  users : list User;
  next_id : nat;
  writes : list User;
  outbox : list Mail;
  reads : nat;
  draws : nat;
  salted : nat;
  awaited : nat
}.

(** A computation returns a value or throws; either way the effects it had
    remain. *)
Inductive Outcome (A : Type) : Type :=
| Return (a : A)
| Throw (e : Err).
Arguments Return {A} a.
Arguments Throw {A} e.

Definition M (A : Type) : Type := Env -> World -> Outcome A * World.

Definition ret {A : Type} (a : A) : M A := fun _ w => (Return a, w).

Definition throw {A : Type} (e : Err) : M A := fun _ w => (Throw e, w).

Definition bind {A B : Type} (m : M A) (k : A -> M B) : M B :=
  fun e w =>
    match m e w with
    | (Return a, w') => k a e w'
    | (Throw err, w') => (Throw err, w')
    end.

Notation "x <- m ;; k" := (bind m (fun x => k))
  (at level 61, m at next level, right associativity).
Notation "m ;;; k" := (bind m (fun _ => k))
  (at level 61, right associativity).

(** A route handler: it always answers. *)
Definition Handler : Type := Env -> World -> Response * World.

(** [try { ... } catch (err) { ... }] around the body of a handler. *)
Definition try_catch (m : M Response) (h : Err -> Response) : Handler :=
  fun e w =>
    match m e w with
    | (Return r, w') => (r, w')
    | (Throw err, w') => (h err, w')
    end.

(** [Date.now()] *)
Definition Date_now : M Z :=
  fun e w =>
    (Return (clock e (reads w)),
     mkWorld (users w) (next_id w) (writes w) (outbox w)
             (S (reads w)) (draws w) (salted w) (awaited w)).

(** [Math.random()], as the numerator [k] of the double [k / 2^53]. *)
Definition Math_random : M Z :=
  fun e w =>
    (Return (random e (draws w) mod 2 ^ 53),
     mkWorld (users w) (next_id w) (writes w) (outbox w)
             (reads w) (S (draws w)) (salted w) (awaited w)).

(** An awaited call to the database or the mail transport: it may reject. *)
Definition await : M unit :=
  fun e w =>
    let w' := mkWorld (users w) (next_id w) (writes w) (outbox w)
                      (reads w) (draws w) (salted w) (S (awaited w)) in
    match fault e (awaited w) with
    | Some err => (Throw err, w')
    | None => (Return tt, w')
    end.

(** [User.findOne({ email })] *)
Definition User_findOne (mail : string) : M (option User) :=
  await ;;;
  fun _ w => (Return (find (fun u => String.eqb (email u) mail) (users w)), w).

(** [newUser.save()]: the document gets a fresh [_id]; the unique index on
    [email] rejects a duplicate. *)
Definition save_new (mk : nat -> User) : M unit :=
  await ;;;
  fun _ w =>
    let u := mk (next_id w) in
    if existsb (fun v => String.eqb (email v) (email u)) (users w)
    then (Throw (Error "E11000 duplicate key error"), w)
    else (Return tt,
          mkWorld (users w ++ [u])%list (S (next_id w)) (writes w ++ [u])%list
                  (outbox w) (reads w) (draws w) (salted w) (awaited w)).

(** The collection after the document with the [_id] of [u] was replaced
    by [u]. *)
Definition replace_user (u : User) (us : list User) : list User :=
  map (fun v => if Nat.eqb (_id v) (_id u) then u else v) us.

(** [user.save()] on a document that was loaded: one update of the document
    with that [_id]. *)
Definition save (u : User) : M unit :=
  await ;;;
  fun _ w =>
    (Return tt,
     mkWorld (replace_user u (users w))
             (next_id w) (writes w ++ [u])%list (outbox w)
             (reads w) (draws w) (salted w) (awaited w)).

(** [transporter.sendMail(mailOptions)] *)
Definition sendMail (m : Mail) : M unit :=
  await ;;;
  fun _ w =>
    (Return tt,
     mkWorld (users w) (next_id w) (writes w) (outbox w ++ [m])%list
             (reads w) (draws w) (salted w) (awaited w)).

(** [bcrypt.hash(password, 10)]: rejects a password that is not a string. *)
Definition bcrypt_hash `{Bcrypt} (pw : option string) : M string :=
  match pw with
  | None => throw (Error "Illegal arguments: undefined, number")
  | Some p =>
      fun e w =>
        (Return (hash p (salts e (salted w))),
         mkWorld (users w) (next_id w) (writes w) (outbox w)
                 (reads w) (draws w) (S (salted w)) (awaited w))
  end.

(** [bcrypt.compare(password, stored)] *)
Definition bcrypt_compare `{Bcrypt} (pw : option string) (stored : string)
    : M bool :=
  match pw with
  | None => throw (Error "Illegal arguments: undefined, string")
  | Some p => ret (compare p stored)
  end.

(** ** The OTP-capable server *)

(** What [generateAndSendOtp] resolves to. *)
Record OtpResult : Type := mkOtpResult {
  result_message : string;
  result_cooldown : Z
}.

(** [d > now] and [d - now] for a [Date] path [d]. *)
Definition date_gt (d : Field Z) (now : Z) : bool :=
  match d with
  | Unset => false
  | Null => now <? 0
  | Val t => now <? t
  end.

Definition date_minus (d : Field Z) (now : Z) : Z :=
  match d with
  | Val t => t - now
  | _ => 0 - now
  end.

Definition wait_message (cooldownRemaining : Z) : string :=
  "Please wait " ++ Number_toString cooldownRemaining
    ++ " seconds before requesting a new OTP".

Definition with_otp (u : User) (o : Field string) (e c : Field Z) : User :=
  mkUser (_id u) (fullName u) (username u) (email u) (phone u) (address u)
         (password u) o e c.

(** [generateAndSendOtp(rawEmail)].  Its own [catch] logs and rethrows. *)
Definition generateAndSendOtp (rawEmail : string) : M OtpResult :=
  let mail := normalize (Some rawEmail) in
  found <- User_findOne mail ;;
  match found with
  | None => throw (Error "User not found")
  | Some u =>
      active <- (if truthy_date (otpResendCooldown u)
                 then now <- Date_now ;; ret (date_gt (otpResendCooldown u) now)
                 else ret false) ;;
      if (active : bool) then
        now <- Date_now ;;
        let cooldownRemaining :=
          ceil_div (date_minus (otpResendCooldown u) now) 1000 in
        throw (Error (wait_message cooldownRemaining))
      else
        k <- Math_random ;;
        let otp' := Number_toString (otp_number k) in
        now1 <- Date_now ;;
        let otpExpiry' := now1 + 5 * 60 * 1000 in
        now2 <- Date_now ;;
        let otpResendCooldown' := now2 + 60 * 1000 in
        save (with_otp u (Val otp') (Val otpExpiry') (Val otpResendCooldown')) ;;;
        sendMail (mkMail mail "Password Reset OTP" otp') ;;;
        ret (mkOtpResult "OTP sent to email" 60)
  end.

(** [err.message || fallback] *)
Definition message_or (e : Err) (fallback : string) : string :=
  if String.eqb (err_message e) "" then fallback else err_message e.

(** [res.json(result)] *)
Definition json_result (r : OtpResult) : Response :=
  mkResponse 200 (result_message r) None (Some (result_cooldown r)) None.

(** [POST /register] *)
Definition register `{Bcrypt} (b : body.t) : Handler :=
  try_catch
    (let normalizedEmail := normalize (body.email b) in
     existingUser <- User_findOne normalizedEmail ;;
     match existingUser with
     | Some _ => ret (json 400 "Email already registered")
     | None =>
         hashedPassword <- bcrypt_hash (body.password b) ;;
         save_new (fun id =>
           mkUser id (body.fullName b) (body.username b) normalizedEmail
                  (body.phone b) (body.address b) hashedPassword
                  Unset Unset Unset) ;;;
         ret (json 201 "User registered successfully")
     end)
    (fun err => mkResponse 400 "Error registering user" None None (Some err)).

(** [POST /login] *)
Definition login `{Bcrypt} (b : body.t) : Handler :=
  try_catch
    (let normalizedEmail := normalize (body.email b) in
     found <- User_findOne normalizedEmail ;;
     match found with
     | None => ret (json 400 "Invalid email or password")
     | Some u =>
         isMatch <- bcrypt_compare (body.password b) (password u) ;;
         if negb isMatch then ret (json 400 "Invalid email or password")
         else
           let safeUser := rest_without "password" (toObject u) in
           ret (mkResponse 200 "Login successful" (Some safeUser) None None)
     end)
    (fun err => mkResponse 500 "Server error" None None (Some err)).

(** [POST /forgot-password] *)
Definition forgot_password (b : body.t) : Handler :=
  let mail := normalize (body.email b) in
  try_catch
    (result <- generateAndSendOtp mail ;;
     ret (json_result result))
    (fun err =>
       let st := if String.eqb (err_message err) "User not found"
                 then 404 else 500 in
       json st (message_or err "Error sending OTP")).

(** [POST /resend-otp] *)
Definition resend_otp (b : body.t) : Handler :=
  let mail := normalize (body.email b) in
  try_catch
    (result <- generateAndSendOtp mail ;;
     ret (json_result result))
    (fun err => json 500 (message_or err "Error resending OTP")).

(** [POST /verify-otp] *)
Definition verify_otp (b : body.t) : Handler :=
  let mail := normalize (body.email b) in
  let candidate := body.otp b in
  try_catch
    (found <- User_findOne mail ;;
     match found with
     | None => ret (json 400 "Invalid OTP")
     | Some u =>
         if negb (strict_eq (js_of_field (otp u)) candidate)
         then ret (json 400 "Invalid OTP")
         else
           now <- Date_now ;;
           if date_lt (otpExpiry u) now
           then ret (json 400 "OTP has expired")
           else ret (json 200 "OTP verified successfully")
     end)
    (fun _ => json 500 "Error verifying OTP").

(** [POST /reset-password] *)
Definition reset_password `{Bcrypt} (b : body.t) : Handler :=
  let mail := normalize (body.email b) in
  try_catch
    (found <- User_findOne mail ;;
     match found with
     | None => ret (json 404 "User not found")
     | Some u =>
         hashedPassword <- bcrypt_hash (body.password b) ;;
         save (mkUser (_id u) (fullName u) (username u) (email u) (phone u)
                      (address u) hashedPassword Null Null Null) ;;;
         ret (json 200 "Password reset successful")
     end)
    (fun _ => json 500 "Error resetting password").

(** ** The two earlier servers *)

Module Legacy.

(** [User.findOne({ email })] with the property as it arrived: a missing
    one is sent as [null] and matches no document, every document having
    the required [email]. *)
Definition User_findOne_raw (mail : option string) : M (option User) :=
  match mail with
  | Some m => User_findOne m
  | None => await ;;; ret None
  end.

(** The [required: true] validator of a [String] path. *)
Definition required (v : option string) : bool :=
  match v with
  | Some s => negb (String.eqb s "")
  | None => false
  end.

(** [POST /register] *)
Definition register `{Bcrypt} (b : body.t) : Handler :=
  try_catch
    (existingUser <- User_findOne_raw (body.email b) ;;
     match existingUser with
     | Some _ => ret (json 400 "Email already registered")
     | None =>
         hashedPassword <- bcrypt_hash (body.password b) ;;
         if required (body.fullName b) && required (body.username b)
            && required (body.email b) && required (body.phone b)
            && required (body.address b) && required (Some hashedPassword)
         then
           save_new (fun id =>
             mkUser id (body.fullName b) (body.username b)
                    (or_empty (body.email b)) (body.phone b)
                    (body.address b) hashedPassword Unset Unset Unset) ;;;
           ret (json 201 "User registered successfully")
         else throw (Error "User validation failed")
     end)
    (fun err => mkResponse 400 "Error registering user" None None (Some err)).

(** [POST /login] *)
Definition login `{Bcrypt} (b : body.t) : Handler :=
  try_catch
    (found <- User_findOne_raw (body.email b) ;;
     match found with
     | None =>
         ret (json 400 "Invalid email or password. Please register first.")
     | Some u =>
         isMatch <- bcrypt_compare (body.password b) (password u) ;;
         if negb isMatch
         then ret (json 400 "Invalid email or password. Please register first.")
         else ret (mkResponse 200 "Login successful" (Some (toObject u))
                              None None)
     end)
    (fun err => mkResponse 500 "Server error" None None (Some err)).

End Legacy.

(** ** Notions used in the statements *)

(** The lookup [User.findOne({ email })] performs on a collection. *)
Abbreviation lookup mail us := (find (fun u => String.eqb (email u) mail) us).

(** The clock readings the cooldown check of [generateAndSendOtp] takes:
    one if a cooldown is stored, none otherwise. *)
Definition check_reads (u : User) : nat :=
  if truthy_date (otpResendCooldown u) then 1%nat else 0%nat.

(** The cooldown check, at the reading [now]. *)
Definition cooldown_active (u : User) (now : Z) : bool :=
  truthy_date (otpResendCooldown u) && date_gt (otpResendCooldown u) now.

(** The code drawn by an issuance that starts in world [w]. *)
Definition drawn_code (e : Env) (w : World) : string :=
  Number_toString (otp_number (random e (draws w) mod 2 ^ 53)).

(** The document an issuance for [u] saves when it starts in world [w]. *)
Definition issued_record (e : Env) (w : World) (u : User) : User :=
  let n := (reads w + check_reads u)%nat in
  with_otp u (Val (drawn_code e w))
           (Val (clock e n + 5 * 60 * 1000))
           (Val (clock e (S n) + 60 * 1000)).

(** A string that does not start with white space. *)
Definition starts_clean (s : string) : Prop :=
  match s with
  | EmptyString => True
  | String c _ => is_space c = false
  end.

(** A decimal digit. *)
Definition is_digit (c : ascii) : bool :=
  let n := nat_of_ascii c in ((48 <=? n)%nat && (n <=? 57)%nat).

Fixpoint all_digits (s : string) : bool :=
  match s with
  | EmptyString => true
  | String c r => is_digit c && all_digits r
  end.

(** Six decimal digits, the first of which is not zero. *)
Definition six_digits_no_leading_zero (s : string) : bool :=
  match s with
  | String c _ =>
      (String.length s =? 6)%nat && all_digits s
      && negb (Ascii.eqb c "0"%char)
  | EmptyString => false
  end.

(** ** Concrete instances used in the examples *)

(** A hasher that satisfies the laws of [Bcrypt]: it prefixes the password
    with a marker and ignores the salt. *)
Definition ToyBcrypt : Bcrypt := {|
  hash := fun p _ => String "$" p;
  compare := fun p h => String.eqb (String "$" p) h;
  compare_hash := fun p _ => String.eqb_refl (String "$" p);
  hash_nonempty := fun p _ (H : String "$" p = EmptyString) =>
    match H in (_ = s)
          return (match s with EmptyString => False | String _ _ => True end)
    with eq_refl => I end
|}.

(** A steady clock, a fixed random draw, no failure. *)
Definition steady (now : Z) (k : Z) : Env :=
  mkEnv (fun _ => now) (fun _ => k) (fun _ => "salt") (fun _ => None).

(** A clock that reads [t1] for the first [n] readings and [t2] afterwards. *)
Definition two_phase (n : nat) (t1 t2 : Z) : Env :=
  mkEnv (fun i => if Nat.ltb i n then t1 else t2) (fun _ => 0)
        (fun _ => "salt") (fun _ => None).

(** The environment [e] with [Math.random()] always returning [k / 2^53]. *)
Definition with_random (e : Env) (k : Z) : Env :=
  mkEnv (clock e) (fun _ => k) (salts e) (fault e).

Definition empty_world : World := mkWorld [] 0 [] [] 0 0 0 0.

Definition world_of (us : list User) : World :=
  mkWorld us (List.length us) [] [] 0 0 0 0.

(** A registered identity with the given OTP state. *)
Definition alice (o : Field string) (e c : Field Z) : User :=
  mkUser 0 (Some "Alice") (Some "alice") "alice@example.com" (Some "555")
         (Some "1 Main St") (String "$" "old-secret") o e c.

Definition request (mail : string) (pw : option string) (candidate : JsVal)
    : body.t :=
  body.mk (Some "Alice") (Some "alice") (Some mail) (Some "555")
          (Some "1 Main St") pw candidate.

(** Alice right after registration: no code was ever issued. *)
Definition alice_fresh : World := world_of [alice Unset Unset Unset].

(** Alice holding the code [123456] that expires at instant [1000]. *)
Definition alice_with_code : World :=
  world_of [alice (Val "123456") (Val 1000) (Val 700)].

(** Alice after a code was issued at instant [0]: it expires at [300000] and
    the cooldown ends at [60000]. *)
Definition alice_after_issue : World :=
  world_of [alice (Val "123456") (Val 300000) (Val 60000)].

(** Alice during a cooldown that ends at [60000], holding a code that
    expired at [50000]. *)
Definition alice_expired_cooling : World :=
  world_of [alice (Val "123456") (Val 50000) (Val 60000)].

(** ** The routes of the OTP-capable server *)

(** The [app.post] routes that act on the [users] collection. *)
Inductive Route : Type :=
| Register
| Login
| ForgotPassword
| ResendOtp
| VerifyOtp
| ResetPassword.

Definition app `{Bcrypt} (r : Route) (b : body.t) : Handler :=
  match r with
  | Register => register b
  | Login => login b
  | ForgotPassword => forgot_password b
  | ResendOtp => resend_otp b
  | VerifyOtp => verify_otp b
  | ResetPassword => reset_password b
  end.

(** Requests handled one after the other, each to completion. *)
Fixpoint serve `{Bcrypt} (rs : list (Route * body.t)) (e : Env) (w : World)
    : list Response * World :=
  match rs with
  | [] => ([], w)
  | (r, b) :: rest =>
      let (resp, w1) := app r b e w in
      let (resps, w2) := serve rest e w1 in
      (resp :: resps, w2)
  end.

(** ** The routes of the two earlier servers *)

Module LegacyServer.

Inductive Route : Type :=
| Register
| Login.

Definition app `{Bcrypt} (r : Route) (b : body.t) : Handler :=
  match r with
  | Register => Legacy.register b
  | Login => Legacy.login b
  end.

Fixpoint serve `{Bcrypt} (rs : list (Route * body.t)) (e : Env) (w : World)
    : list Response * World :=
  match rs with
  | [] => ([], w)
  | (r, b) :: rest =>
      let (resp, w1) := app r b e w in
      let (resps, w2) := serve rest e w1 in
      (resp :: resps, w2)
  end.

End LegacyServer.

(** ** Contact messages *)

(** A document of the [contacts] collection ([contactSchema]); the request
    body of [/contact] has the same three properties, each a string or
    missing. *)
Module Contact.
Record t : Type := mk {
  name : option string;
  email : option string;
  message : option string
}.
End Contact.

(** [POST /contact], the same in the three servers: the body is saved as it
    is.  The handler acts on the [contacts] collection, kept beside the
    world. *)
Definition contact (b : Contact.t)
    : Env -> World * list Contact.t -> Response * (World * list Contact.t) :=
  fun e s =>
    match await e (fst s) with
    | (Return _, w') =>
        (json 201 "Message sent successfully!", (w', (snd s ++ [b])%list))
    | (Throw _, w') => (json 500 "Error saving message", (w', snd s))
    end.

(** Contact requests handled one after the other. *)
Fixpoint contact_all (bs : list Contact.t) (e : Env)
    (s : World * list Contact.t) : list Response * (World * list Contact.t) :=
  match bs with
  | [] => ([], s)
  | b :: rest =>
      let (resp, s1) := contact b e s in
      let (resps, s2) := contact_all rest e s1 in
      (resp :: resps, s2)
  end.

(** The bodies of [bs] whose write is not rejected, when the first of them
    is the [n]-th awaited operation. *)
Fixpoint accepted (e : Env) (n : nat) (bs : list Contact.t) : list Contact.t :=
  match bs with
  | [] => []
  | b :: rest =>
      match fault e n with
      | None => b :: accepted e (S n) rest
      | Some _ => accepted e (S n) rest
      end
  end.

(** ** Invariants of the collection *)

(** Identifiers and addresses are unique, and identifiers are below the
    next fresh one. *)
Definition unique_identities (w : World) : Prop :=
  NoDup (map _id (users w))
  /\ NoDup (map email (users w))
  /\ Forall (fun u => (_id u < next_id w)%nat) (users w).

(** The three OTP paths of a document are unset together, [null] together,
    or set together, the code then being six digits without leading zero. *)
Definition otp_fields_together (u : User) : Prop :=
  (otp u = Unset /\ otpExpiry u = Unset /\ otpResendCooldown u = Unset)
  \/ (otp u = Null /\ otpExpiry u = Null /\ otpResendCooldown u = Null)
  \/ (exists c t1 t2,
        otp u = Val c /\ six_digits_no_leading_zero c = true
        /\ otpExpiry u = Val t1 /\ otpResendCooldown u = Val t2).

(** The stored address is its own normal form. *)
Definition normalized_email (u : User) : Prop :=
  normalize (Some (email u)) = email u.

(** The stored password is an output of [bcrypt.hash]. *)
Definition hashed_password `{Bcrypt} (u : User) : Prop :=
  exists p salt, password u = hash p salt.

(** All five profile paths hold a non-empty string, as [required: true]
    demands in the two earlier servers. *)
Definition complete_profile (u : User) : Prop :=
  Legacy.required (fullName u) = true
  /\ Legacy.required (username u) = true
  /\ Legacy.required (Some (email u)) = true
  /\ Legacy.required (phone u) = true
  /\ Legacy.required (address u) = true.

(** How one request changes the collection: not at all, by one new
    document, or by the update of one document that keeps its identifier
    and address. *)
Inductive users_step `{Bcrypt} (w w' : World) : Prop :=
| step_same :
    users w' = users w -> next_id w' = next_id w -> users_step w w'
| step_new (u : User) :
    users w' = (users w ++ [u])%list ->
    next_id w' = S (next_id w) ->
    _id u = next_id w ->
    lookup (email u) (users w) = None ->
    normalized_email u ->
    hashed_password u ->
    otp u = Unset -> otpExpiry u = Unset -> otpResendCooldown u = Unset ->
    users_step w w'
| step_update (u u' : User) :
    users w' = replace_user u' (users w) ->
    next_id w' = next_id w ->
    In u (users w) ->
    _id u' = _id u ->
    email u' = email u ->
    password u' = password u \/ hashed_password u' ->
    otp_fields_together u' ->
    users_step w w'.

(** No upper-case ASCII letter. *)
Fixpoint no_upper (s : string) : bool :=
  match s with
  | EmptyString => true
  | String c r =>
      let n := nat_of_ascii c in
      negb ((65 <=? n)%nat && (n <=? 90)%nat) && no_upper r
  end.

(** ** Further concrete instances *)

(** An environment as [steady], where the [n]-th awaited operation is
    rejected. *)
Definition failing_at (n : nat) (now : Z) : Env :=
  mkEnv (fun _ => now) (fun _ => 0) (fun _ => "salt")
        (fun i => if Nat.eqb i n then Some (Error "upstream") else None).

(** Bob's registration and login requests, the address in two spellings. *)
Definition bob_registers : body.t :=
  body.mk (Some "Bob") (Some "bob") (Some " Bob@Example.COM ") (Some "556")
          (Some "2 Main St") (Some "bobs-secret") JUndefined.

Definition bob_logs_in : body.t :=
  body.mk None None (Some "bob@example.com") None None (Some "bobs-secret")
          JUndefined.

(** A contact message, and an empty one. *)
Definition hello : Contact.t :=
  Contact.mk (Some "Carol") (Some "carol@example.com") (Some "Hello").

Definition blank : Contact.t := Contact.mk None None None.

(** * Properties *)

(** ** Normalization of email addresses *)

Lemma append_assoc (a b c : string) : (a ++ b) ++ c = a ++ (b ++ c).
Proof. induction a as [|x a IH]; simpl; [reflexivity|]. now rewrite IH. Qed.

Lemma rev_append_string_app (s acc : string) :
  rev_append_string s acc = rev_string s ++ acc.
Proof.
  unfold rev_string. revert acc.
  induction s as [|c s IH]; intros acc; simpl; [reflexivity|].
  rewrite IH, (IH (String c EmptyString)).
  rewrite append_assoc. reflexivity.
Qed.

Lemma append_empty_r (s : string) : s ++ EmptyString = s.
Proof. induction s; simpl; congruence. Qed.

Lemma rev_string_cons (c : ascii) (s : string) :
  rev_string (String c s) = rev_string s ++ String c EmptyString.
Proof. unfold rev_string at 1. simpl. apply rev_append_string_app. Qed.

Lemma rev_string_app (a b : string) :
  rev_string (a ++ b) = rev_string b ++ rev_string a.
Proof.
  induction a as [|c a IH]; simpl.
  - symmetry. apply append_empty_r.
  - rewrite !rev_string_cons, IH. apply append_assoc.
Qed.

Lemma rev_string_involutive (s : string) : rev_string (rev_string s) = s.
Proof.
  induction s as [|c s IH]; [reflexivity|].
  rewrite rev_string_cons, rev_string_app, IH. reflexivity.
Qed.

Lemma trimStart_clean (s : string) : starts_clean (trimStart s).
Proof.
  induction s as [|c s IH]; simpl; [exact I|].
  destruct (is_space c) eqn:E; [exact IH|exact E].
Qed.

Lemma trimStart_fixed (s : string) : starts_clean s -> trimStart s = s.
Proof. destruct s as [|c s]; simpl; [reflexivity|]. now intros ->. Qed.

Lemma trimStart_keeps_tail (x y : string) (c : ascii) :
  is_space c = false ->
  exists z, trimStart (x ++ String c y) = z ++ String c y.
Proof.
  intros Hc. induction x as [|d x IH]; simpl.
  - rewrite Hc. now exists EmptyString.
  - destruct (is_space d); [exact IH|].
    now exists (String d x).
Qed.

Lemma trim_clean (s : string) :
  starts_clean (trim s) /\ starts_clean (rev_string (trim s)).
Proof.
  unfold trim. split.
  - pose proof (trimStart_clean s) as Ht.
    destruct (trimStart s) as [|c t]; [exact I|]. simpl in Ht.
    rewrite rev_string_cons.
    destruct (trimStart_keeps_tail (rev_string t) EmptyString c Ht) as [z ->].
    rewrite rev_string_app. exact Ht.
  - rewrite rev_string_involutive. apply trimStart_clean.
Qed.

Lemma trim_fixed (s : string) :
  starts_clean s -> starts_clean (rev_string s) -> trim s = s.
Proof.
  intros H1 H2. unfold trim.
  rewrite (trimStart_fixed s H1), (trimStart_fixed _ H2).
  apply rev_string_involutive.
Qed.

Lemma trim_idempotent (s : string) : trim (trim s) = trim s.
Proof. destruct (trim_clean s). now apply trim_fixed. Qed.

Lemma is_space_lower_char (c : ascii) : is_space (lower_char c) = is_space c.
Proof. destruct c as [[] [] [] [] [] [] [] []]; reflexivity. Qed.

Lemma lower_char_idempotent (c : ascii) :
  lower_char (lower_char c) = lower_char c.
Proof. destruct c as [[] [] [] [] [] [] [] []]; reflexivity. Qed.

Lemma toLowerCase_idempotent (s : string) :
  toLowerCase (toLowerCase s) = toLowerCase s.
Proof.
  induction s as [|c s IH]; simpl; [reflexivity|].
  now rewrite lower_char_idempotent, IH.
Qed.

Lemma toLowerCase_app (a b : string) :
  toLowerCase (a ++ b) = toLowerCase a ++ toLowerCase b.
Proof. induction a as [|c a IH]; simpl; [reflexivity|]. now rewrite IH. Qed.

Lemma toLowerCase_rev (s : string) :
  toLowerCase (rev_string s) = rev_string (toLowerCase s).
Proof.
  induction s as [|c s IH]; [reflexivity|]. simpl toLowerCase.
  rewrite !rev_string_cons, toLowerCase_app, IH. reflexivity.
Qed.

Lemma toLowerCase_trimStart (s : string) :
  toLowerCase (trimStart s) = trimStart (toLowerCase s).
Proof.
  induction s as [|c s IH]; simpl; [reflexivity|].
  rewrite is_space_lower_char. destruct (is_space c); [exact IH|reflexivity].
Qed.

Lemma toLowerCase_trim (s : string) :
  toLowerCase (trim s) = trim (toLowerCase s).
Proof.
  unfold trim.
  now rewrite toLowerCase_rev, toLowerCase_trimStart, toLowerCase_rev,
    toLowerCase_trimStart.
Qed.

(** Normalizing a normalized address changes nothing: the handlers of
    [/forgot-password] and [/resend-otp] normalize before the call and
    [generateAndSendOtp] normalizes again. *)
Lemma normalize_idempotent (x : option string) :
  normalize (Some (normalize x)) = normalize x.
Proof.
  unfold normalize. simpl or_empty.
  rewrite <- toLowerCase_trim, toLowerCase_idempotent, toLowerCase_trim.
  rewrite <- toLowerCase_trim, trim_idempotent. reflexivity.
Qed.

(** ** The six-digit code *)

(** Rounding to 53 bits moves a number by at most half a unit in the last
    place and yields a multiple of that unit. *)
Lemma round53_near (N : Z) :
  0 < N -> 52 < Z.log2 N ->
  let s := Z.log2 N - 52 in
  exists m, round53 N = m * 2 ^ s
            /\ - 2 ^ s <= 2 * (m * 2 ^ s - N) <= 2 ^ s.
Proof.
  intros HN Hl s. unfold round53.
  destruct (Z.log2 N <=? 52) eqn:E; [apply Z.leb_le in E; lia|].
  fold s.
  assert (Hs : 0 < s) by (subst s; lia).
  assert (Hp : 2 ^ s = 2 * 2 ^ (s - 1)).
  { replace s with (Z.succ (s - 1)) at 1 by lia. apply Z.pow_succ_r. lia. }
  assert (Hh : 0 < 2 ^ (s - 1)) by (apply Z.pow_pos_nonneg; lia).
  pose proof (Z.div_mod N (2 ^ s) ltac:(lia)) as Hdm.
  pose proof (Z.mod_pos_bound N (2 ^ s) ltac:(lia)) as Hr.
  set (q := N / 2 ^ s) in *. set (r := N mod 2 ^ s) in *.
  set (T := 2 ^ s) in *. set (h := 2 ^ (s - 1)) in *.
  clearbody q r T h.
  destruct (r <? h) eqn:E1.
  { apply Z.ltb_lt in E1. exists q. split; [reflexivity|]. lia. }
  apply Z.ltb_ge in E1.
  destruct (h <? r) eqn:E2.
  { apply Z.ltb_lt in E2. exists (q + 1). split; [reflexivity|]. lia. }
  apply Z.ltb_ge in E2.
  destruct (Z.even q).
  - exists q. split; [reflexivity|]. lia.
  - exists (q + 1). split; [reflexivity|]. lia.
Qed.

(** Below [2^73] the rounding moves a number by at most [2^19]. *)
Lemma round53_error (N : Z) :
  0 <= N < 2 ^ 73 -> - 2 ^ 19 <= round53 N - N <= 2 ^ 19.
Proof.
  intros [H0 H1].
  destruct (Z.leb_spec (Z.log2 N) 52) as [Hl|Hl].
  - unfold round53. apply Z.leb_le in Hl. rewrite Hl. lia.
  - assert (HN : 0 < N).
    { destruct (Z.eq_dec N 0) as [->|]; [simpl in Hl; lia|lia]. }
    destruct (round53_near N HN Hl) as (m & -> & Hm).
    assert (Hl73 : Z.log2 N < 73) by (apply Z.log2_lt_pow2; lia).
    assert (Hs : 2 ^ (Z.log2 N - 52) <= 2 ^ 20)
      by (apply Z.pow_le_mono_r; lia).
    change (2 ^ 20) with 1048576 in Hs. change (2 ^ 19) with 524288.
    lia.
Qed.

(** The rounded product [Math.random() * 900000] stays below [900000], at
    most at the last double before it. *)
Lemma product_bound (k : Z) :
  0 <= k < 2 ^ 53 ->
  0 <= round53 (k * 900000) <= 900000 * 2 ^ 53 - 2 ^ 20.
Proof.
  intros Hk. change (2 ^ 53) with 9007199254740992 in *.
  change (2 ^ 20) with 1048576.
  set (N := k * 900000).
  assert (HN : 0 <= N <= 900000 * 9007199254740992 - 900000) by (subst N; lia).
  destruct (Z.leb_spec (Z.log2 N) 52) as [Hl|Hl].
  - unfold round53. pose proof Hl as Hl'. apply Z.leb_le in Hl'. rewrite Hl'.
    assert (N < 2 ^ 53).
    { destruct (Z.eq_dec N 0) as [->|]; [reflexivity|].
      apply Z.log2_lt_pow2; lia. }
    change (2 ^ 53) with 9007199254740992 in *. lia.
  - assert (HN0 : 0 < N).
    { destruct (Z.eq_dec N 0) as [E|]; [rewrite E in Hl; simpl in Hl; lia|lia]. }
    destruct (round53_near N HN0 Hl) as (m & -> & Hm).
    assert (Hl73 : Z.log2 N < 73).
    { apply Z.log2_lt_pow2; [lia|]. change (2 ^ 73) with 9444732965739290427392.
      lia. }
    destruct (Z.eq_dec (Z.log2 N) 72) as [E|E].
    + rewrite E in *. change (2 ^ (72 - 52)) with 1048576 in *. lia.
    + assert (Hs : 2 ^ (Z.log2 N - 52) <= 2 ^ 19)
        by (apply Z.pow_le_mono_r; lia).
      assert (Hlt : N < 2 ^ 72).
      { apply Z.log2_lt_pow2; lia. }
      change (2 ^ 19) with 524288 in Hs.
      change (2 ^ 72) with 4722366482869645213696 in Hlt.
      assert (0 < 2 ^ (Z.log2 N - 52)) by (apply Z.pow_pos_nonneg; lia).
      lia.
Qed.

(** The rounded sum stays within [100000, 1000000). *)
Lemma sum_bound (p : Z) :
  0 <= p <= 900000 * 2 ^ 53 - 2 ^ 20 ->
  100000 * 2 ^ 53 <= round53 (100000 * 2 ^ 53 + p) <= 1000000 * 2 ^ 53 - 2 ^ 20.
Proof.
  change (2 ^ 53) with 9007199254740992. change (2 ^ 20) with 1048576.
  intros Hp. set (M := 100000 * 9007199254740992 + p).
  assert (HM : 100000 * 9007199254740992 <= M
               <= 1000000 * 9007199254740992 - 1048576) by (subst M; lia).
  clearbody M.
  assert (Hlo : 69 <= Z.log2 M).
  { apply Z.log2_le_pow2; [lia|]. change (2 ^ 69) with 590295810358705651712.
    lia. }
  assert (Hhi : Z.log2 M < 73).
  { apply Z.log2_lt_pow2; [lia|]. change (2 ^ 73) with 9444732965739290427392.
    lia. }
  destruct (round53_near M ltac:(lia) ltac:(lia)) as (m & -> & Hm).
  assert (Hc : Z.log2 M = 69 \/ Z.log2 M = 70 \/ Z.log2 M = 71
               \/ Z.log2 M = 72) by lia.
  destruct Hc as [E|[E|[E|E]]]; rewrite E in *.
  - change (2 ^ (69 - 52)) with 131072 in *. lia.
  - change (2 ^ (70 - 52)) with 262144 in *. lia.
  - change (2 ^ (71 - 52)) with 524288 in *. lia.
  - change (2 ^ (72 - 52)) with 1048576 in *. lia.
Qed.

(** [Math.floor(100000 + Math.random() * 900000)] is an integer from
    [100000] to [999999]. *)
Lemma otp_number_range (k : Z) :
  0 <= k < 2 ^ 53 -> 100000 <= otp_number k <= 999999.
Proof.
  intros Hk. unfold otp_number.
  pose proof (sum_bound _ (product_bound k Hk)) as H.
  set (S := round53 _) in *. clearbody S.
  change (2 ^ 53) with 9007199254740992 in *.
  change (2 ^ 20) with 1048576 in *.
  split.
  - apply Z.div_le_lower_bound; lia.
  - assert (S / 9007199254740992 < 1000000); [|lia].
    apply Z.div_lt_upper_bound; lia.
Qed.

(** Every integer from [100000] to [999999] is the code for some result of
    [Math.random()]. *)
Lemma otp_number_onto (n : Z) :
  100000 <= n <= 999999 ->
  exists k, 0 <= k < 2 ^ 53 /\ otp_number k = n.
Proof.
  intros Hn.
  set (k := ((n - 100000) * 2 ^ 53 + 2 ^ 52) / 900000).
  pose proof (Z.div_mod ((n - 100000) * 2 ^ 53 + 2 ^ 52) 900000 ltac:(lia))
    as Hdm.
  pose proof (Z.mod_pos_bound ((n - 100000) * 2 ^ 53 + 2 ^ 52) 900000
                ltac:(lia)) as Hr.
  fold k in Hdm.
  set (r := _ mod 900000) in *. clearbody r.
  change (2 ^ 53) with 9007199254740992 in *.
  change (2 ^ 52) with 4503599627370496 in *.
  assert (Hk : 0 <= k < 9007199254740992) by (clearbody k; lia).
  exists k. split; [exact Hk|].
  unfold otp_number. change (2 ^ 53) with 9007199254740992.
  assert (H1 : 0 <= k * 900000 < 2 ^ 73).
  { change (2 ^ 73) with 9444732965739290427392. lia. }
  pose proof (round53_error _ H1) as E1.
  set (p := round53 (k * 900000)) in *. 
  assert (H2 : 0 <= 100000 * 9007199254740992 + p < 2 ^ 73).
  { change (2 ^ 73) with 9444732965739290427392.
    change (2 ^ 19) with 524288 in E1. clearbody k p. lia. }
  pose proof (round53_error _ H2) as E2.
  set (S := round53 (100000 * 9007199254740992 + p)) in *.
  change (2 ^ 19) with 524288 in *.
  clearbody k p S.
  symmetry. apply (Z.div_unique S 9007199254740992 n (S - n * 9007199254740992));
    lia.
Qed.

(** The decimal form of a six-digit integer. *)
Lemma Number_toString_six (n : Z) :
  100000 <= n <= 999999 ->
  Number_toString n =
  String (digit_char (n / 100000))
    (String (digit_char (n / 10000 mod 10))
       (String (digit_char (n / 1000 mod 10))
          (String (digit_char (n / 100 mod 10))
             (String (digit_char (n / 10 mod 10))
                (String (digit_char (n mod 10)) EmptyString))))).
Proof.
  intros Hn. unfold Number_toString.
  destruct (n <? 0) eqn:E; [apply Z.ltb_lt in E; lia|].
  assert (Hl : 16 <= Z.log2 n).
  { apply Z.log2_le_pow2; [lia|]. change (2 ^ 16) with 65536. lia. }
  destruct (Z.to_nat (Z.log2 n)) as [|[|[|[|[|f]]]]] eqn:Ef; try lia.
  cbn [digits_of].
  assert (E1 : (n / 10 =? 0) = false) by (apply Z.eqb_neq; clear Ef; Z.to_euclidean_division_equations; lia).
  assert (E2 : (n / 10 / 10 =? 0) = false) by (apply Z.eqb_neq; clear Ef; Z.to_euclidean_division_equations; lia).
  assert (E3 : (n / 10 / 10 / 10 =? 0) = false) by (apply Z.eqb_neq; clear Ef; Z.to_euclidean_division_equations; lia).
  assert (E4 : (n / 10 / 10 / 10 / 10 =? 0) = false) by (apply Z.eqb_neq; clear Ef; Z.to_euclidean_division_equations; lia).
  assert (E5 : (n / 10 / 10 / 10 / 10 / 10 =? 0) = false)
    by (apply Z.eqb_neq; clear Ef; Z.to_euclidean_division_equations; lia).
  assert (E6 : (n / 10 / 10 / 10 / 10 / 10 / 10 =? 0) = true)
    by (apply Z.eqb_eq; clear Ef; Z.to_euclidean_division_equations; lia).
  rewrite E1, E2, E3, E4, E5, E6.
  replace (n / 10 / 10 / 10 / 10 / 10 mod 10) with (n / 100000)
    by (clear - Hn; Z.to_euclidean_division_equations; lia).
  replace (n / 10 / 10 / 10 / 10 mod 10) with (n / 10000 mod 10)
    by (clear - Hn; Z.to_euclidean_division_equations; lia).
  replace (n / 10 / 10 / 10 mod 10) with (n / 1000 mod 10)
    by (clear - Hn; Z.to_euclidean_division_equations; lia).
  replace (n / 10 / 10 mod 10) with (n / 100 mod 10)
    by (clear - Hn; Z.to_euclidean_division_equations; lia).
  reflexivity.
Qed.

Lemma digit_char_is_digit (d : Z) :
  0 <= d <= 9 -> is_digit (digit_char d) = true.
Proof.
  intros H.
  assert (C : d = 0 \/ d = 1 \/ d = 2 \/ d = 3 \/ d = 4 \/ d = 5 \/ d = 6
              \/ d = 7 \/ d = 8 \/ d = 9) by lia.
  repeat (destruct C as [-> | C]; [reflexivity|]). now subst.
Qed.

Lemma digit_char_not_zero (d : Z) :
  1 <= d <= 9 -> Ascii.eqb (digit_char d) "0"%char = false.
Proof.
  intros H.
  assert (C : d = 1 \/ d = 2 \/ d = 3 \/ d = 4 \/ d = 5 \/ d = 6
              \/ d = 7 \/ d = 8 \/ d = 9) by lia.
  repeat (destruct C as [-> | C]; [reflexivity|]). now subst.
Qed.

(** The code of a six-digit integer: six digits, no leading zero. *)
Lemma Number_toString_shape (n : Z) :
  100000 <= n <= 999999 ->
  six_digits_no_leading_zero (Number_toString n) = true.
Proof.
  intros Hn. rewrite (Number_toString_six n Hn).
  unfold six_digits_no_leading_zero. cbn [String.length all_digits Nat.eqb].
  rewrite !digit_char_is_digit
    by (clear - Hn; Z.to_euclidean_division_equations; lia).
  rewrite digit_char_not_zero
    by (clear - Hn; Z.to_euclidean_division_equations; lia).
  reflexivity.
Qed.

Lemma drawn_code_shape (e : Env) (w : World) :
  exists n, drawn_code e w = Number_toString n
            /\ 100000 <= n <= 999999
            /\ six_digits_no_leading_zero (drawn_code e w) = true.
Proof.
  unfold drawn_code.
  set (k := random e (draws w) mod 2 ^ 53).
  assert (Hk : 0 <= k < 2 ^ 53) by (apply Z.mod_pos_bound; reflexivity).
  exists (otp_number k). split; [reflexivity|].
  split; [apply otp_number_range, Hk|].
  apply Number_toString_shape, otp_number_range, Hk.
Qed.

(** ** Running the monad *)

Ltac run :=
  cbv beta iota zeta delta
    [try_catch bind ret throw User_findOne save save_new sendMail await
     Date_now Math_random bcrypt_hash bcrypt_compare] in *;
  cbn [users next_id writes outbox reads draws salted awaited fst snd
       negb andb orb truthy_date date_gt date_minus] in *.

(** ** [POST /verify-otp] *)

(** The handler, one branch at a time. *)
Lemma verify_otp_run (b : body.t) (e : Env) (w : World) :
  verify_otp b e w =
  let w1 := mkWorld (users w) (next_id w) (writes w) (outbox w)
                    (reads w) (draws w) (salted w) (S (awaited w)) in
  let w2 := mkWorld (users w) (next_id w) (writes w) (outbox w)
                    (S (reads w)) (draws w) (salted w) (S (awaited w)) in
  match fault e (awaited w) with
  | Some _ => (json 500 "Error verifying OTP", w1)
  | None =>
      match lookup (normalize (body.email b)) (users w) with
      | None => (json 400 "Invalid OTP", w1)
      | Some u =>
          if strict_eq (js_of_field (otp u)) (body.otp b)
          then if date_lt (otpExpiry u) (clock e (reads w))
               then (json 400 "OTP has expired", w2)
               else (json 200 "OTP verified successfully", w2)
          else (json 400 "Invalid OTP", w1)
      end
  end.
Proof.
  unfold verify_otp. run.
  destruct (fault e (awaited w)); run; [reflexivity|].
  destruct (find _ (users w)) as [u|]; run; [|reflexivity].
  destruct (strict_eq _ _); run; [|reflexivity].
  destruct (date_lt _ _); reflexivity.
Qed.

Lemma strict_eq_str (s : string) (v : JsVal) :
  strict_eq (JStr s) v = true <-> v = JStr s.
Proof.
  destruct v; simpl; split; intros H; try discriminate.
  - apply String.eqb_eq in H. now subst.
  - inversion H. apply String.eqb_refl.
Qed.

(** C7.  Validation never changes the collection, never writes and never
    sends mail, whatever it answers; and once it has succeeded it succeeds
    again in every later world holding the same collection, as long as the
    lookup does not fail and the stored expiry is not before the clock
    reading of that later attempt. *)
Theorem verify_otp_non_consuming (b : body.t) (e : Env) (w : World) :
  (let w' := snd (verify_otp b e w) in
   users w' = users w /\ writes w' = writes w /\ outbox w' = outbox w
   /\ next_id w' = next_id w)
  /\ (status (fst (verify_otp b e w)) = 200 ->
      forall w1 : World,
        users w1 = users w ->
        fault e (awaited w1) = None ->
        (forall u, lookup (normalize (body.email b)) (users w) = Some u ->
                   date_lt (otpExpiry u) (clock e (reads w1)) = false) ->
        fst (verify_otp b e w1) = json 200 "OTP verified successfully"
        /\ users (snd (verify_otp b e w1)) = users w).
Proof.
  split.
  - rewrite verify_otp_run. simpl.
    destruct (fault e (awaited w)); [simpl; auto|].
    destruct (find _ (users w)) as [u|]; [|simpl; auto].
    destruct (strict_eq _ _); [|simpl; auto].
    destruct (date_lt _ _); simpl; auto.
  - intros Hok w1 Hus Hf Hexp.
    rewrite verify_otp_run in Hok. rewrite verify_otp_run. simpl in *.
    rewrite Hf, Hus.
    destruct (fault e (awaited w)); [discriminate|].
    destruct (find _ (users w)) as [u|]; [|discriminate].
    destruct (strict_eq _ _); [|discriminate].
    rewrite (Hexp u eq_refl). simpl. auto.
Qed.

(** C2 (as amended).  When the lookup itself does not fail, validation
    answers [Invalid OTP] if no identity matches the normalized email, if the
    stored code is a string and the candidate is not that very string, if no
    code was ever stored and the candidate is anything but absent, or if the
    stored code is [null] and the candidate is anything but [null]; it
    answers [OTP has expired] if the code matches and the stored expiry is
    strictly before now; and it succeeds if the code matches and the expiry
    is now or later. *)
Theorem verify_otp_outcomes (b : body.t) (e : Env) (w : World) :
  fault e (awaited w) = None ->
  let r := fst (verify_otp b e w) in
  let now := clock e (reads w) in
  (lookup (normalize (body.email b)) (users w) = None ->
   r = json 400 "Invalid OTP")
  /\ (forall u, lookup (normalize (body.email b)) (users w) = Some u ->
      (forall s, otp u = Val s -> body.otp b <> JStr s ->
                 r = json 400 "Invalid OTP")
      /\ (otp u = Unset -> body.otp b <> JUndefined ->
          r = json 400 "Invalid OTP")
      /\ (otp u = Null -> body.otp b <> JNull ->
          r = json 400 "Invalid OTP")
      /\ (forall s t, otp u = Val s -> body.otp b = JStr s ->
                      otpExpiry u = Val t -> t < now ->
                      r = json 400 "OTP has expired")
      /\ (forall s t, otp u = Val s -> body.otp b = JStr s ->
                      otpExpiry u = Val t -> now <= t ->
                      r = json 200 "OTP verified successfully")).
Proof.
  intros Hf r now. subst r now. rewrite verify_otp_run. cbv zeta. rewrite Hf.
  split.
  - intros ->. reflexivity.
  - intros u ->. repeat split.
    + intros s Hs Hne. rewrite Hs. simpl js_of_field.
      destruct (strict_eq (JStr s) (body.otp b)) eqn:E; [|reflexivity].
      apply strict_eq_str in E. contradiction.
    + intros -> Hu. simpl js_of_field.
      destruct (body.otp b); try contradiction; reflexivity.
    + intros -> Hn. simpl js_of_field.
      destruct (body.otp b); try contradiction; reflexivity.
    + intros s t Hs Hc Ht Hlt. rewrite Hs, Hc, Ht. simpl.
      rewrite String.eqb_refl.
      apply Z.ltb_lt in Hlt. rewrite Hlt. reflexivity.
    + intros s t Hs Hc Ht Hle. rewrite Hs, Hc, Ht. simpl.
      rewrite String.eqb_refl.
      apply Z.ltb_ge in Hle. rewrite Hle. reflexivity.
Qed.

Lemma verify_otp_outcomes_witness :
  fault (steady 900 0) (awaited alice_with_code) = None
  /\ fst (verify_otp (request "alice@example.com" None (JStr "123456"))
                     (steady 900 0) alice_with_code)
     = json 200 "OTP verified successfully".
Proof.
  split; [reflexivity|].
  pose proof (verify_otp_outcomes
                (request "alice@example.com" None (JStr "123456"))
                (steady 900 0) alice_with_code eq_refl) as [_ H].
  destruct (H (alice (Val "123456") (Val 1000) (Val 700)) eq_refl)
    as (_ & _ & _ & _ & Hok).
  apply (Hok "123456" 1000); try reflexivity. simpl. lia.
Defined.

(** C2 fails as stated at the instant of expiry: with the stored expiry
    equal to now, the matching code is still accepted. *)
Lemma verify_otp_at_expiry_instant :
  otpExpiry (alice (Val "123456") (Val 1000) (Val 700)) = Val 1000
  /\ clock (steady 1000 0) (reads alice_with_code) = 1000
  /\ fst (verify_otp (request "alice@example.com" None (JStr "123456"))
                     (steady 1000 0) alice_with_code)
     = json 200 "OTP verified successfully".
Proof. repeat split. Qed.

(** For an identity that never received a code, a request without [otp] is
    accepted: [undefined !== undefined] is false and the missing expiry
    compares false. *)
Lemma verify_otp_accepts_missing_code :
  fst (verify_otp (request "alice@example.com" None JUndefined)
                  (steady 1000 0) alice_fresh)
  = json 200 "OTP verified successfully".
Proof. reflexivity. Qed.

(** After a reset has stored [null], a [null] candidate passes the
    comparison and is answered as expired. *)
Lemma verify_otp_null_against_null :
  fst (verify_otp (request "alice@example.com" None JNull)
                  (steady 1000 0) (world_of [alice Null Null Null]))
  = json 400 "OTP has expired".
Proof. reflexivity. Qed.

(** ** [generateAndSendOtp] *)

(** An issuance fails when the lookup rejects. *)
Lemma issue_lookup_rejected (mail : string) (e : Env) (w : World) (err : Err) :
  fault e (awaited w) = Some err ->
  fst (generateAndSendOtp mail e w) = Throw err
  /\ users (snd (generateAndSendOtp mail e w)) = users w.
Proof.
  intros H. unfold generateAndSendOtp. run. rewrite H. simpl. auto.
Qed.

(** An issuance fails with [User not found] when no document matches. *)
Lemma issue_not_found (mail : string) (e : Env) (w : World) :
  fault e (awaited w) = None ->
  lookup (normalize (Some mail)) (users w) = None ->
  fst (generateAndSendOtp mail e w) = Throw (Error "User not found")
  /\ users (snd (generateAndSendOtp mail e w)) = users w.
Proof.
  intros H1 H2. unfold generateAndSendOtp. run. rewrite H1. run.
  rewrite H2. simpl. auto.
Qed.

(** An issuance during the cooldown: no write, no mail, and the message
    carries the whole seconds left at the second clock reading. *)
Lemma issue_throttled (mail : string) (e : Env) (w : World) (u : User) (c : Z) :
  fault e (awaited w) = None ->
  lookup (normalize (Some mail)) (users w) = Some u ->
  otpResendCooldown u = Val c ->
  clock e (reads w) < c ->
  generateAndSendOtp mail e w =
  (Throw (Error (wait_message (ceil_div (c - clock e (S (reads w))) 1000))),
   mkWorld (users w) (next_id w) (writes w) (outbox w)
           (S (S (reads w))) (draws w) (salted w) (S (awaited w))).
Proof.
  intros H1 H2 H3 H4. unfold generateAndSendOtp. run. rewrite H1. run.
  rewrite H2. run. rewrite H3. run.
  apply Z.ltb_lt in H4. rewrite H4. run. reflexivity.
Qed.

(** An issuance outside the cooldown whose write and mail go through. *)
Lemma issue_success (mail : string) (e : Env) (w : World) (u : User) :
  fault e (awaited w) = None ->
  lookup (normalize (Some mail)) (users w) = Some u ->
  cooldown_active u (clock e (reads w)) = false ->
  fault e (S (awaited w)) = None ->
  fault e (S (S (awaited w))) = None ->
  generateAndSendOtp mail e w =
  (Return (mkOtpResult "OTP sent to email" 60),
   mkWorld (replace_user (issued_record e w u) (users w)) (next_id w)
           (writes w ++ [issued_record e w u])
           (outbox w ++ [mkMail (normalize (Some mail)) "Password Reset OTP"
                                (drawn_code e w)])
           (S (S (reads w + check_reads u))) (S (draws w)) (salted w)
           (S (S (S (awaited w))))).
Proof.
  intros H1 H2 H3 H4 H5. unfold generateAndSendOtp. run. rewrite H1. run.
  rewrite H2. run. unfold cooldown_active in H3.
  unfold issued_record, check_reads, drawn_code.
  destruct (truthy_date (otpResendCooldown u)); run.
  - simpl in H3. rewrite H3. run. rewrite H4. run. rewrite H5. run.
    rewrite !Nat.add_1_r. reflexivity.
  - rewrite H4. run. rewrite H5. run. rewrite !Nat.add_0_r. reflexivity.
Qed.

(** Conversely, an issuance that returns took exactly that path. *)
Lemma issue_return_inv (mail : string) (e : Env) (w : World) (r : OtpResult) :
  fst (generateAndSendOtp mail e w) = Return r ->
  exists u,
    fault e (awaited w) = None
    /\ lookup (normalize (Some mail)) (users w) = Some u
    /\ cooldown_active u (clock e (reads w)) = false
    /\ fault e (S (awaited w)) = None
    /\ fault e (S (S (awaited w))) = None.
Proof.
  unfold generateAndSendOtp, cooldown_active. run.
  destruct (fault e (awaited w)) eqn:H1; run; [discriminate|].
  destruct (find _ (users w)) as [u|] eqn:H2; run; [|discriminate].
  intros H. exists u.
  destruct (truthy_date (otpResendCooldown u)); run.
  - destruct (date_gt (otpResendCooldown u) (clock e (reads w))); run;
      [discriminate|].
    destruct (fault e (S (awaited w))) eqn:H4; run; [discriminate|].
    destruct (fault e (S (S (awaited w)))) eqn:H5; run; [discriminate|].
    auto.
  - destruct (fault e (S (awaited w))) eqn:H4; run; [discriminate|].
    destruct (fault e (S (S (awaited w)))) eqn:H5; run; [discriminate|].
    auto.
Qed.

(** An issuance whose write is rejected: nothing is stored, no mail goes
    out. *)
Lemma issue_write_rejected (mail : string) (e : Env) (w : World) (u : User)
    (err : Err) :
  fault e (awaited w) = None ->
  lookup (normalize (Some mail)) (users w) = Some u ->
  cooldown_active u (clock e (reads w)) = false ->
  fault e (S (awaited w)) = Some err ->
  fst (generateAndSendOtp mail e w) = Throw err
  /\ users (snd (generateAndSendOtp mail e w)) = users w
  /\ outbox (snd (generateAndSendOtp mail e w)) = outbox w.
Proof.
  intros H1 H2 H3 H4. unfold generateAndSendOtp. run. rewrite H1. run.
  rewrite H2. run. unfold cooldown_active in H3.
  destruct (truthy_date (otpResendCooldown u)); run.
  - simpl in H3. rewrite H3. run. rewrite H4. run. auto.
  - rewrite H4. run. auto.
Qed.

(** An issuance whose mail is rejected: the code is already stored. *)
Lemma issue_mail_rejected (mail : string) (e : Env) (w : World) (u : User)
    (err : Err) :
  fault e (awaited w) = None ->
  lookup (normalize (Some mail)) (users w) = Some u ->
  cooldown_active u (clock e (reads w)) = false ->
  fault e (S (awaited w)) = None ->
  fault e (S (S (awaited w))) = Some err ->
  fst (generateAndSendOtp mail e w) = Throw err
  /\ users (snd (generateAndSendOtp mail e w))
     = replace_user (issued_record e w u) (users w)
  /\ outbox (snd (generateAndSendOtp mail e w)) = outbox w.
Proof.
  intros H1 H2 H3 H4 H5. unfold generateAndSendOtp. run. rewrite H1. run.
  rewrite H2. run. unfold cooldown_active in H3.
  unfold issued_record, check_reads, drawn_code.
  destruct (truthy_date (otpResendCooldown u)); run.
  - simpl in H3. rewrite H3. run. rewrite H4. run. rewrite H5. run.
    rewrite !Nat.add_1_r. auto.
  - rewrite H4. run. rewrite H5. run. rewrite !Nat.add_0_r. auto.
Qed.

(** After [save], the lookup that found [u] finds the saved document. *)
Lemma lookup_replace_user (mail : string) (us : list User) (u u' : User) :
  lookup mail us = Some u ->
  _id u' = _id u ->
  email u' = email u ->
  lookup mail (replace_user u' us) = Some u'.
Proof.
  intros Hfind Hid Hmail.
  assert (Hm : String.eqb (email u') mail = true).
  { rewrite Hmail. apply find_some in Hfind. tauto. }
  induction us as [|v us IH]; simpl in *; [discriminate|].
  destruct (Nat.eqb (_id v) (_id u')) eqn:Eid.
  - now rewrite Hm.
  - destruct (String.eqb (email v) mail) eqn:Ev.
    + inversion Hfind; subst v. rewrite Hid, Nat.eqb_refl in Eid. discriminate.
    + auto.
Qed.

(** [Math.ceil(x / 1000)] is the least number of whole seconds covering
    [x] milliseconds. *)
Lemma ceil_div_bounds (x : Z) :
  1000 * (ceil_div x 1000 - 1) < x <= 1000 * ceil_div x 1000.
Proof.
  unfold ceil_div.
  pose proof (Z.div_mod (- x) 1000 ltac:(lia)).
  pose proof (Z.mod_pos_bound (- x) 1000 ltac:(lia)). lia.
Qed.

(** C6 (as amended).  While the stored cooldown is strictly in the future,
    an issuance is refused with the message carrying the whole seconds left
    (rounded up, so at least one while time is left), and nothing is written
    or mailed.  For two refused attempts on the same record the count of the
    later one is never larger, and it is strictly smaller once the attempts
    are at least one second apart. *)
Theorem throttled_remaining_seconds (mail : string) (e : Env) (w1 w2 : World)
    (u : User) (c : Z) :
  fault e (awaited w1) = None ->
  fault e (awaited w2) = None ->
  lookup (normalize (Some mail)) (users w1) = Some u ->
  lookup (normalize (Some mail)) (users w2) = Some u ->
  otpResendCooldown u = Val c ->
  clock e (reads w1) < c ->
  clock e (reads w2) < c ->
  let t1 := clock e (S (reads w1)) in
  let t2 := clock e (S (reads w2)) in
  let n1 := ceil_div (c - t1) 1000 in
  let n2 := ceil_div (c - t2) 1000 in
  fst (generateAndSendOtp mail e w1) = Throw (Error (wait_message n1))
  /\ fst (generateAndSendOtp mail e w2) = Throw (Error (wait_message n2))
  /\ users (snd (generateAndSendOtp mail e w1)) = users w1
  /\ writes (snd (generateAndSendOtp mail e w1)) = writes w1
  /\ outbox (snd (generateAndSendOtp mail e w1)) = outbox w1
  /\ 1000 * (n1 - 1) < c - t1 <= 1000 * n1
  /\ (t1 < c -> 1 <= n1)
  /\ (t1 <= t2 -> n2 <= n1)
  /\ (t1 + 1000 <= t2 -> n2 < n1).
Proof.
  intros F1 F2 L1 L2 Hc A1 A2 t1 t2 n1 n2.
  rewrite (issue_throttled mail e w1 u c F1 L1 Hc A1).
  rewrite (issue_throttled mail e w2 u c F2 L2 Hc A2).
  pose proof (ceil_div_bounds (c - t1)) as B1.
  pose proof (ceil_div_bounds (c - t2)) as B2.
  cbn [fst snd users writes outbox].
  do 5 (split; [reflexivity|]).
  change (ceil_div (c - t1) 1000) with n1 in B1.
  change (ceil_div (c - t2) 1000) with n2 in B2.
  clearbody n1 n2 t1 t2.
  repeat split; intros; lia.
Qed.

Lemma throttled_remaining_seconds_witness :
  clock (two_phase 2 100 1200) (reads alice_after_issue) < 60000
  /\ fst (generateAndSendOtp "alice@example.com" (two_phase 2 100 1200)
                             alice_after_issue)
     = Throw (Error (wait_message (ceil_div (60000 - 100) 1000)))
  /\ ceil_div (60000 - 1200) 1000 < ceil_div (60000 - 100) 1000.
Proof.
  pose proof (throttled_remaining_seconds "alice@example.com"
                (two_phase 2 100 1200) alice_after_issue
                (snd (generateAndSendOtp "alice@example.com"
                        (two_phase 2 100 1200) alice_after_issue))
                (alice (Val "123456") (Val 300000) (Val 60000)) 60000
                eq_refl eq_refl eq_refl eq_refl eq_refl eq_refl eq_refl)
    as (H1 & _ & _ & _ & _ & _ & _ & _ & H9).
  split; [reflexivity|]. split; [exact H1|].
  apply H9. vm_compute. discriminate.
Defined.

(** C6 fails as stated for attempts less than a second apart: at instants
    [100] and [200] of a cooldown that ends at [60000], both refusals report
    60 seconds. *)
Lemma throttled_twice_same_count :
  clock (two_phase 2 100 200) 1 < clock (two_phase 2 100 200) 3
  /\ fst (generateAndSendOtp "alice@example.com" (two_phase 2 100 200)
                             alice_after_issue)
     = Throw (Error "Please wait 60 seconds before requesting a new OTP")
  /\ fst (generateAndSendOtp "alice@example.com" (two_phase 2 100 200)
            (snd (generateAndSendOtp "alice@example.com"
                    (two_phase 2 100 200) alice_after_issue)))
     = Throw (Error "Please wait 60 seconds before requesting a new OTP").
Proof. repeat split. Qed.

(** C8.  An issuance that returns has saved, in one write, the record of the
    identity with the drawn code, the expiry five minutes after one clock
    reading and the cooldown sixty seconds after the next reading; that
    record is what the next lookup finds; the caller gets the cooldown 60.
    When both readings show the same instant [now], the expiry is
    [now + 5 minutes] and the cooldown [now + 60 seconds]. *)
Theorem issue_sets_expiry_and_cooldown (mail : string) (e : Env) (w : World)
    (r : OtpResult) :
  fst (generateAndSendOtp mail e w) = Return r ->
  exists u u',
    let w' := snd (generateAndSendOtp mail e w) in
    let n := (reads w + check_reads u)%nat in
    lookup (normalize (Some mail)) (users w) = Some u
    /\ result_cooldown r = 60
    /\ u' = mkUser (_id u) (fullName u) (username u) (email u) (phone u)
                   (address u) (password u)
                   (Val (drawn_code e w))
                   (Val (clock e n + 5 * 60 * 1000))
                   (Val (clock e (S n) + 60 * 1000))
    /\ writes w' = (writes w ++ [u'])%list
    /\ users w' = replace_user u' (users w)
    /\ lookup (normalize (Some mail)) (users w') = Some u'
    /\ (forall now, clock e n = now -> clock e (S n) = now ->
          otpExpiry u' = Val (now + 300000)
          /\ otpResendCooldown u' = Val (now + 60000)).
Proof.
  intros Hr.
  destruct (issue_return_inv mail e w r Hr) as (u & F1 & L & A & F2 & F3).
  exists u, (issued_record e w u).
  rewrite (issue_success mail e w u F1 L A F2 F3) in *.
  cbn [fst snd users writes] in *.
  inversion Hr; subst r. cbn [result_cooldown].
  repeat split; auto.
  - apply (lookup_replace_user _ _ u); auto.
  - unfold issued_record, with_otp. cbn [otpExpiry]. rewrite H. f_equal.
  - unfold issued_record, with_otp. cbn [otpResendCooldown]. rewrite H0.
    f_equal.
Qed.

Lemma issue_sets_expiry_and_cooldown_witness :
  fst (generateAndSendOtp "alice@example.com" (steady 70000 0) alice_after_issue)
  = Return (mkOtpResult "OTP sent to email" 60)
  /\ lookup "alice@example.com"
       (users (snd (generateAndSendOtp "alice@example.com" (steady 70000 0)
                                       alice_after_issue)))
     = Some (alice (Val "100000") (Val 370000) (Val 130000)).
Proof.
  split; [reflexivity|].
  destruct (issue_sets_expiry_and_cooldown "alice@example.com"
              (steady 70000 0) alice_after_issue
              (mkOtpResult "OTP sent to email" 60) eq_refl)
    as (u & u' & L & _ & Hu & _ & _ & L' & _).
  vm_compute in L. inversion L; subst u. clear L.
  change (normalize (Some "alice@example.com")) with "alice@example.com" in L'.
  rewrite L'. rewrite Hu. reflexivity.
Defined.

(** C10.  The cooldown check reads only the stored cooldown.  During the
    cooldown an issuance is refused even when the stored expiry is already
    past.  Once the cooldown is over (and the write and the mail go through)
    a new code is issued and replaces the stored one even when that one is
    still unexpired.  And two worlds whose records agree on the cooldown,
    whatever their codes and expiries, give the same outcome. *)
Theorem cooldown_check_ignores_expiry (mail : string) (e : Env) (w : World)
    (u : User) :
  fault e (awaited w) = None ->
  lookup (normalize (Some mail)) (users w) = Some u ->
  let now := clock e (reads w) in
  (forall c t, otpResendCooldown u = Val c -> now < c ->
     otpExpiry u = Val t -> t < now ->
     fst (generateAndSendOtp mail e w)
     = Throw (Error (wait_message
                       (ceil_div (c - clock e (S (reads w))) 1000)))
     /\ users (snd (generateAndSendOtp mail e w)) = users w)
  /\ (forall c t, otpResendCooldown u = Val c -> c <= now ->
      otpExpiry u = Val t -> now < t ->
      fault e (S (awaited w)) = None ->
      fault e (S (S (awaited w))) = None ->
      fst (generateAndSendOtp mail e w)
      = Return (mkOtpResult "OTP sent to email" 60)
      /\ exists u',
           lookup (normalize (Some mail))
                  (users (snd (generateAndSendOtp mail e w))) = Some u'
           /\ otp u' = Val (drawn_code e w)
           /\ otpExpiry u' = Val (clock e (S (reads w)) + 5 * 60 * 1000))
  /\ (forall w2 u2,
        fault e (awaited w2) = None ->
        lookup (normalize (Some mail)) (users w2) = Some u2 ->
        otpResendCooldown u2 = otpResendCooldown u ->
        reads w2 = reads w ->
        awaited w2 = awaited w ->
        fst (generateAndSendOtp mail e w2) = fst (generateAndSendOtp mail e w)).
Proof.
  intros F L now. split; [|split].
  - intros c t Hc Hlt _ _.
    rewrite (issue_throttled mail e w u c F L Hc Hlt). auto.
  - intros c t Hc Hle _ _ F2 F3.
    assert (A : cooldown_active u now = false).
    { unfold cooldown_active. rewrite Hc. simpl. apply Z.ltb_ge. exact Hle. }
    rewrite (issue_success mail e w u F L A F2 F3). cbn [fst snd users].
    split; [reflexivity|].
    exists (issued_record e w u). split.
    + apply (lookup_replace_user _ _ u); auto.
    + unfold issued_record, check_reads, with_otp. rewrite Hc.
      cbn [truthy_date otp otpExpiry]. rewrite Nat.add_1_r. auto.
  - intros w2 u2 F' L' Hcd Hr Ha.
    destruct (cooldown_active u now) eqn:A.
    + unfold cooldown_active in A.
      destruct (otpResendCooldown u) as [| |c] eqn:Hc; try discriminate.
      simpl in A. apply Z.ltb_lt in A.
      rewrite (issue_throttled mail e w u c F L Hc A).
      rewrite (issue_throttled mail e w2 u2 c F' L' Hcd); [|now rewrite Hr].
      rewrite Hr. reflexivity.
    + assert (A' : cooldown_active u2 (clock e (reads w2)) = false).
      { unfold cooldown_active. rewrite Hcd, Hr. exact A. }
      destruct (fault e (S (awaited w))) as [err|] eqn:F2.
      * destruct (issue_write_rejected mail e w u err F L A F2) as [-> _].
        rewrite <- Ha in F2.
        destruct (issue_write_rejected mail e w2 u2 err F' L' A' F2) as [-> _].
        reflexivity.
      * destruct (fault e (S (S (awaited w)))) as [err|] eqn:F3.
        -- destruct (issue_mail_rejected mail e w u err F L A F2 F3) as [-> _].
           rewrite <- Ha in F2, F3.
           destruct (issue_mail_rejected mail e w2 u2 err F' L' A' F2 F3)
             as [-> _].
           reflexivity.
        -- rewrite (issue_success mail e w u F L A F2 F3).
           rewrite <- Ha in F2, F3.
           rewrite (issue_success mail e w2 u2 F' L' A' F2 F3).
           reflexivity.
Qed.

Lemma cooldown_check_ignores_expiry_witness :
  fst (generateAndSendOtp "alice@example.com" (steady 55000 0)
                          alice_expired_cooling)
  = Throw (Error (wait_message 5))
  /\ fst (generateAndSendOtp "alice@example.com" (steady 70000 0) alice_after_issue)
     = Return (mkOtpResult "OTP sent to email" 60).
Proof.
  split.
  - destruct (cooldown_check_ignores_expiry "alice@example.com"
                (steady 55000 0) alice_expired_cooling
                (alice (Val "123456") (Val 50000) (Val 60000))
                eq_refl eq_refl) as (H & _ & _).
    destruct (H 60000 50000 eq_refl eq_refl eq_refl eq_refl) as [-> _].
    reflexivity.
  - destruct (cooldown_check_ignores_expiry "alice@example.com"
                (steady 70000 0) alice_after_issue
                (alice (Val "123456") (Val 300000) (Val 60000))
                eq_refl eq_refl) as (_ & H & _).
    assert (Hle : 60000 <= 70000) by (vm_compute; discriminate).
    destruct (H 60000 300000 eq_refl Hle eq_refl eq_refl eq_refl eq_refl)
      as [-> _].
    reflexivity.
Defined.

(** ** [POST /resend-otp] and [POST /forgot-password] *)

Lemma resend_otp_run (b : body.t) (e : Env) (w : World) :
  resend_otp b e w =
  match generateAndSendOtp (normalize (body.email b)) e w with
  | (Return r, w') => (json_result r, w')
  | (Throw err, w') => (json 500 (message_or err "Error resending OTP"), w')
  end.
Proof.
  unfold resend_otp. run.
  destruct (generateAndSendOtp _ e w) as [[r|err] w']; reflexivity.
Qed.

Lemma forgot_password_run (b : body.t) (e : Env) (w : World) :
  forgot_password b e w =
  match generateAndSendOtp (normalize (body.email b)) e w with
  | (Return r, w') => (json_result r, w')
  | (Throw err, w') =>
      (json (if String.eqb (err_message err) "User not found"
             then 404 else 500)
            (message_or err "Error sending OTP"), w')
  end.
Proof.
  unfold forgot_password. run.
  destruct (generateAndSendOtp _ e w) as [[r|err] w']; reflexivity.
Qed.

Lemma resend_otp_throw (b : body.t) (e : Env) (w : World) (err : Err) :
  fst (generateAndSendOtp (normalize (body.email b)) e w) = Throw err ->
  status (fst (resend_otp b e w)) = 500.
Proof.
  rewrite resend_otp_run.
  destruct (generateAndSendOtp _ e w) as [[r|err'] w']; simpl;
    [discriminate|reflexivity].
Qed.

(** C9.  Whenever [generateAndSendOtp] throws, [/resend-otp] answers 500 (and
    200 when it returns).  That covers an unknown email, which
    [/forgot-password] answers with 404, an active cooldown, and a rejected
    lookup, write or mail. *)
Theorem resend_otp_failures_are_500 (b : body.t) (e : Env) (w : World) :
  let mail := normalize (body.email b) in
  (forall err, fst (generateAndSendOtp mail e w) = Throw err ->
     status (fst (resend_otp b e w)) = 500)
  /\ (forall r, fst (generateAndSendOtp mail e w) = Return r ->
        status (fst (resend_otp b e w)) = 200)
  /\ (fault e (awaited w) = None -> lookup mail (users w) = None ->
      status (fst (resend_otp b e w)) = 500
      /\ status (fst (forgot_password b e w)) = 404)
  /\ (forall u c, fault e (awaited w) = None ->
        lookup mail (users w) = Some u ->
        otpResendCooldown u = Val c -> clock e (reads w) < c ->
        status (fst (resend_otp b e w)) = 500)
  /\ (forall err, fault e (awaited w) = Some err ->
        status (fst (resend_otp b e w)) = 500)
  /\ (forall u err, fault e (awaited w) = None ->
        lookup mail (users w) = Some u ->
        cooldown_active u (clock e (reads w)) = false ->
        fault e (S (awaited w)) = Some err
        \/ (fault e (S (awaited w)) = None
            /\ fault e (S (S (awaited w))) = Some err) ->
        status (fst (resend_otp b e w)) = 500).
Proof.
  intros mail. subst mail. repeat split.
  - intros err. apply resend_otp_throw.
  - intros r. rewrite resend_otp_run.
    destruct (generateAndSendOtp _ e w) as [[r'|err'] w']; simpl;
      [reflexivity|discriminate].
  - apply (resend_otp_throw b e w (Error "User not found")).
    apply issue_not_found; [assumption|].
    now rewrite normalize_idempotent.
  - rewrite forgot_password_run.
    destruct (issue_not_found (normalize (body.email b)) e w) as [Hn _];
      [assumption| now rewrite normalize_idempotent |].
    destruct (generateAndSendOtp _ e w) as [[r'|err'] w']; simpl in *;
      [discriminate|].
    inversion Hn. reflexivity.
  - intros u c F L Hc Hlt.
    apply (resend_otp_throw b e w
             (Error (wait_message
                       (ceil_div (c - clock e (S (reads w))) 1000)))).
    rewrite (issue_throttled _ e w u c); auto.
    now rewrite normalize_idempotent.
  - intros err F. apply (resend_otp_throw b e w err).
    now apply issue_lookup_rejected.
  - intros u err F L A [F2 | [F2 F3]]; apply (resend_otp_throw b e w err).
    + apply (issue_write_rejected _ e w u err); auto.
      now rewrite normalize_idempotent.
    + apply (issue_mail_rejected _ e w u err); auto.
      now rewrite normalize_idempotent.
Qed.

Lemma resend_otp_failures_are_500_witness :
  status (fst (resend_otp (request "Nobody@Example.com " None JUndefined)
                          (steady 1000 0) alice_fresh)) = 500
  /\ status (fst (forgot_password
                    (request "Nobody@Example.com " None JUndefined)
                    (steady 1000 0) alice_fresh)) = 404.
Proof.
  destruct (resend_otp_failures_are_500
              (request "Nobody@Example.com " None JUndefined)
              (steady 1000 0) alice_fresh) as (_ & _ & H & _).
  apply H; reflexivity.
Defined.

Lemma verify_otp_non_consuming_witness :
  fst (verify_otp (request "alice@example.com" None (JStr "123456"))
         (steady 900 0)
         (snd (verify_otp (request "alice@example.com" None (JStr "123456"))
                          (steady 900 0) alice_with_code)))
  = json 200 "OTP verified successfully".
Proof.
  destruct (verify_otp_non_consuming
              (request "alice@example.com" None (JStr "123456"))
              (steady 900 0) alice_with_code) as [_ H].
  apply (H eq_refl); try reflexivity.
  intros u Hu. vm_compute in Hu. inversion Hu. reflexivity.
Defined.

(** ** [POST /login], [POST /register] and [POST /reset-password] *)

Lemma has_key_rest_without (key : string) (o : Obj) :
  has_key key (rest_without key o) = false.
Proof.
  unfold has_key, rest_without.
  induction o as [|[k v] o IH]; simpl; [reflexivity|].
  destruct (String.eqb k key) eqn:E; simpl; [exact IH|].
  now rewrite E.
Qed.

Lemma existsb_lookup (mail : string) (us : list User) :
  existsb (fun v => String.eqb (email v) mail) us
  = match lookup mail us with Some _ => true | None => false end.
Proof.
  induction us as [|v us IH]; simpl; [reflexivity|].
  destruct (String.eqb (email v) mail); simpl; [reflexivity|exact IH].
Qed.

Lemma lookup_app_new (mail : string) (us : list User) (u : User) :
  email u = mail ->
  lookup mail (us ++ [u]) <> None.
Proof.
  intros Hu. induction us as [|v us IH]; simpl.
  - rewrite Hu, String.eqb_refl. discriminate.
  - destruct (String.eqb (email v) mail); [discriminate|exact IH].
Qed.

Section WithHasher.

Context `{B : Bcrypt}.

Lemma hash_eqb_empty (p salt : string) :
  String.eqb (hash p salt) "" = false.
Proof.
  destruct (String.eqb (hash p salt) "") eqn:E; [|reflexivity].
  apply String.eqb_eq in E. now apply hash_nonempty in E.
Qed.

(** The handler of [/login], one branch at a time. *)
Lemma login_run (b : body.t) (e : Env) (w : World) :
  login b e w =
  let w1 := mkWorld (users w) (next_id w) (writes w) (outbox w)
                    (reads w) (draws w) (salted w) (S (awaited w)) in
  match fault e (awaited w) with
  | Some err => (mkResponse 500 "Server error" None None (Some err), w1)
  | None =>
      match lookup (normalize (body.email b)) (users w) with
      | None => (json 400 "Invalid email or password", w1)
      | Some u =>
          match body.password b with
          | None =>
              (mkResponse 500 "Server error" None None
                 (Some (Error "Illegal arguments: undefined, string")), w1)
          | Some q =>
              if compare q (password u)
              then (mkResponse 200 "Login successful"
                      (Some (rest_without "password" (toObject u)))
                      None None, w1)
              else (json 400 "Invalid email or password", w1)
          end
      end
  end.
Proof.
  unfold login. run.
  destruct (fault e (awaited w)); run; [reflexivity|].
  destruct (find _ (users w)) as [u|]; run; [|reflexivity].
  destruct (body.password b) as [q|]; run; [|reflexivity].
  destruct (compare q (password u)); reflexivity.
Qed.

(** In the OTP-capable server every successful login answers with the
    document without its [password] property. *)
Lemma login_strips_password (b : body.t) (e : Env) (w : World) :
  status (fst (login b e w)) = 200 ->
  exists u,
    lookup (normalize (body.email b)) (users w) = Some u
    /\ user (fst (login b e w)) = Some (rest_without "password" (toObject u))
    /\ has_key "password" (rest_without "password" (toObject u)) = false.
Proof.
  rewrite login_run. cbv zeta.
  destruct (fault e (awaited w)); [discriminate|].
  destruct (find _ (users w)) as [u|]; [|discriminate].
  destruct (body.password b) as [q|]; [|discriminate].
  destruct (compare q (password u)); [|discriminate].
  intros _. exists u. repeat split. apply has_key_rest_without.
Qed.

(** The handler of [/register], one branch at a time. *)
Lemma register_run (b : body.t) (e : Env) (w : World) :
  register b e w =
  let mail := normalize (body.email b) in
  let tick n s := mkWorld (users w) (next_id w) (writes w) (outbox w)
                          (reads w) (draws w) s n in
  let failed err := mkResponse 400 "Error registering user" None None
                               (Some err) in
  match fault e (awaited w) with
  | Some err => (failed err, tick (S (awaited w)) (salted w))
  | None =>
      match lookup mail (users w) with
      | Some _ => (json 400 "Email already registered",
                   tick (S (awaited w)) (salted w))
      | None =>
          match body.password b with
          | None => (failed (Error "Illegal arguments: undefined, number"),
                     tick (S (awaited w)) (salted w))
          | Some p =>
              match fault e (S (awaited w)) with
              | Some err =>
                  (failed err, tick (S (S (awaited w))) (S (salted w)))
              | None =>
                  let u := mkUser (next_id w) (body.fullName b)
                             (body.username b) mail (body.phone b)
                             (body.address b)
                             (hash p (salts e (salted w)))
                             Unset Unset Unset in
                  (json 201 "User registered successfully",
                   mkWorld (users w ++ [u]) (S (next_id w))
                           (writes w ++ [u]) (outbox w) (reads w) (draws w)
                           (S (salted w)) (S (S (awaited w))))
              end
          end
      end
  end.
Proof.
  unfold register. run.
  destruct (fault e (awaited w)); run; [reflexivity|].
  destruct (find _ (users w)) as [u|] eqn:L; run; [reflexivity|].
  destruct (body.password b) as [p|]; run; [|reflexivity].
  destruct (fault e (S (awaited w))); run; [reflexivity|].
  cbn [email]. rewrite existsb_lookup, L. reflexivity.
Qed.

(** X22.  In the OTP-capable server, after a registration succeeded, a second
    one whose email normalizes to the same address is answered 400 and
    leaves the collection as it is. *)
Lemma register_same_address_conflict (b1 b2 : body.t) (e : Env) (w : World) :
  normalize (body.email b1) = normalize (body.email b2) ->
  status (fst (register b1 e w)) = 201 ->
  let w1 := snd (register b1 e w) in
  status (fst (register b2 e w1)) = 400
  /\ users (snd (register b2 e w1)) = users w1
  /\ List.length (users w1) = S (List.length (users w))
  /\ (fault e (awaited w1) = None ->
      fst (register b2 e w1) = json 400 "Email already registered").
Proof.
  intros Hn H1 w1. subst w1. rewrite (register_run b1 e w) in *.
  cbv zeta in *.
  destruct (fault e (awaited w)); [discriminate|].
  destruct (find _ (users w)) as [u|]; [discriminate|].
  destruct (body.password b1) as [p|]; [|discriminate].
  destruct (fault e (S (awaited w))); [discriminate|].
  cbn [fst snd users awaited].
  set (u1 := mkUser _ _ _ _ _ _ _ _ _ _).
  assert (L : lookup (normalize (body.email b2)) (users w ++ [u1]) <> None).
  { apply lookup_app_new. subst u1. exact Hn. }
  rewrite register_run. cbv zeta. cbn [fst snd users awaited].
  destruct (find _ (users w ++ [u1])) as [v|]; [|contradiction].
  destruct (fault e (S (S (awaited w)))); cbn [fst snd users status];
    repeat split; try discriminate.
  all: rewrite length_app; simpl; lia.
Qed.

(** The handler of [/reset-password], one branch at a time. *)
Lemma reset_password_run (b : body.t) (e : Env) (w : World) :
  reset_password b e w =
  let tick n s := mkWorld (users w) (next_id w) (writes w) (outbox w)
                          (reads w) (draws w) s n in
  match fault e (awaited w) with
  | Some _ => (json 500 "Error resetting password",
               tick (S (awaited w)) (salted w))
  | None =>
      match lookup (normalize (body.email b)) (users w) with
      | None => (json 404 "User not found", tick (S (awaited w)) (salted w))
      | Some u =>
          match body.password b with
          | None => (json 500 "Error resetting password",
                     tick (S (awaited w)) (salted w))
          | Some p =>
              match fault e (S (awaited w)) with
              | Some _ => (json 500 "Error resetting password",
                           tick (S (S (awaited w))) (S (salted w)))
              | None =>
                  let u' := mkUser (_id u) (fullName u) (username u)
                              (email u) (phone u) (address u)
                              (hash p (salts e (salted w))) Null Null Null in
                  (json 200 "Password reset successful",
                   mkWorld (replace_user u' (users w)) (next_id w)
                           (writes w ++ [u']) (outbox w) (reads w) (draws w)
                           (S (salted w)) (S (S (awaited w))))
              end
          end
      end
  end.
Proof.
  unfold reset_password. run.
  destruct (fault e (awaited w)); run; [reflexivity|].
  destruct (find _ (users w)) as [u|]; run; [|reflexivity].
  destruct (body.password b) as [p|]; run; [|reflexivity].
  destruct (fault e (S (awaited w))); run; reflexivity.
Qed.

(** C5.  A password reset that answers 200 has saved, in one write, the
    record of the identity with the hash of the new password and with
    [otp], [otpExpiry] and [otpResendCooldown] all [null].  In every later
    world holding that collection, validation of a string candidate for
    that identity, so also of the code that was valid before, does not
    succeed; and a login for that identity succeeds exactly when the
    hasher accepts the submitted password against the new hash, which it
    does for the new password. *)
Theorem reset_password_clears_otp (b : body.t) (e : Env) (w : World) :
  status (fst (reset_password b e w)) = 200 ->
  let mail := normalize (body.email b) in
  let w' := snd (reset_password b e w) in
  exists u p u',
    lookup mail (users w) = Some u
    /\ body.password b = Some p
    /\ u' = mkUser (_id u) (fullName u) (username u) (email u) (phone u)
                   (address u) (hash p (salts e (salted w))) Null Null Null
    /\ writes w' = (writes w ++ [u'])%list
    /\ users w' = replace_user u' (users w)
    /\ lookup mail (users w') = Some u'
    /\ (forall b2 e2 w2 c,
          users w2 = users w' ->
          normalize (body.email b2) = mail ->
          body.otp b2 = JStr c ->
          status (fst (verify_otp b2 e2 w2)) <> 200)
    /\ (forall b2 e2 w2 q,
          users w2 = users w' ->
          normalize (body.email b2) = mail ->
          body.password b2 = Some q ->
          fault e2 (awaited w2) = None ->
          (compare q (password u') = true ->
           status (fst (login b2 e2 w2)) = 200)
          /\ (compare q (password u') = false ->
              fst (login b2 e2 w2) = json 400 "Invalid email or password")
          /\ (q = p -> status (fst (login b2 e2 w2)) = 200)).
Proof.
  intros Hok mail w'. subst mail w'.
  rewrite reset_password_run in *. cbv zeta in *.
  destruct (fault e (awaited w)); [discriminate|].
  destruct (find _ (users w)) as [u|] eqn:L; [|discriminate].
  destruct (body.password b) as [p|]; [|discriminate].
  destruct (fault e (S (awaited w))); [discriminate|].
  cbn [fst snd users writes].
  set (u' := mkUser (_id u) (fullName u) (username u) (email u) (phone u)
                    (address u) (hash p (salts e (salted w))) Null Null Null).
  assert (L' : lookup (normalize (body.email b)) (replace_user u' (users w))
               = Some u')
    by (apply (lookup_replace_user _ _ u); auto).
  exists u, p, u'. repeat split; auto.
  - intros b2 e2 w2 c Hus Hm Hc. rewrite verify_otp_run. cbv zeta.
    rewrite Hus, Hm, L', Hc. cbn [otp u' js_of_field strict_eq].
    destruct (fault e2 (awaited w2)); discriminate.
  - intros Hq. rewrite login_run. cbv zeta.
    rewrite H2, H, H0, L', H1, Hq. reflexivity.
  - intros Hq. rewrite login_run. cbv zeta.
    rewrite H2, H, H0, L', H1, Hq. reflexivity.
  - intros ->. rewrite login_run. cbv zeta.
    rewrite H2, H, H0, L', H1. subst u'. cbn [password].
    rewrite compare_hash. reflexivity.
Qed.

(** ** The two earlier servers *)

(** C1, on the two earlier servers: after Alice registered, her login is
    answered 200 with her whole document, [password] hash included. *)
Theorem legacy_login_returns_password_hash :
  let e := steady 1000 0 in
  let r := request "alice@example.com" (Some "secret") JUndefined in
  let w1 := snd (Legacy.register r e empty_world) in
  fst (Legacy.register r e empty_world)
  = json 201 "User registered successfully"
  /\ exists o,
       fst (Legacy.login r e w1)
       = mkResponse 200 "Login successful" (Some o) None None
       /\ has_key "password" o = true
       /\ In ("password", OStr (hash "secret" "salt")) o
       /\ lookup "alice@example.com" (users w1)
          = Some (mkUser 0 (Some "Alice") (Some "alice") "alice@example.com"
                         (Some "555") (Some "1 Main St")
                         (hash "secret" "salt") Unset Unset Unset).
Proof.
  cbv zeta. unfold Legacy.register, Legacy.login, Legacy.User_findOne_raw.
  run. cbn.
  repeat (progress (rewrite ?hash_eqb_empty, ?compare_hash; cbn)).
  split; [reflexivity|]. eexists. split; [reflexivity|].
  repeat split. simpl. tauto.
Qed.

(** C3, on the two earlier servers: after [a@X.COM] registered, the
    registration of [a@x.com] is answered 201 and a second document is
    created. *)
Theorem legacy_register_accepts_case_variant :
  let e := steady 1000 0 in
  let r1 := request "a@X.COM" (Some "secret") JUndefined in
  let r2 := request "a@x.com" (Some "secret") JUndefined in
  let w1 := snd (Legacy.register r1 e empty_world) in
  normalize (body.email r1) = normalize (body.email r2)
  /\ fst (Legacy.register r1 e empty_world)
     = json 201 "User registered successfully"
  /\ fst (Legacy.register r2 e w1) = json 201 "User registered successfully"
  /\ map email (users (snd (Legacy.register r2 e w1)))
     = ["a@X.COM"; "a@x.com"].
Proof.
  cbv zeta. unfold Legacy.register, Legacy.User_findOne_raw.
  run. cbn.
  repeat (progress (rewrite ?hash_eqb_empty; cbn)).
  repeat split.
Qed.

End WithHasher.

Lemma reset_password_clears_otp_witness :
  status (fst (@reset_password ToyBcrypt
                 (request "Alice@Example.com" (Some "new-secret") JUndefined)
                 (steady 900 0) alice_with_code)) = 200
  /\ status (fst (verify_otp
                    (request "alice@example.com" None (JStr "123456"))
                    (steady 900 0)
                    (snd (@reset_password ToyBcrypt
                            (request "Alice@Example.com" (Some "new-secret")
                                     JUndefined)
                            (steady 900 0) alice_with_code)))) <> 200
  /\ status (fst (@login ToyBcrypt
                    (request "alice@example.com" (Some "new-secret") JUndefined)
                    (steady 900 0)
                    (snd (@reset_password ToyBcrypt
                            (request "Alice@Example.com" (Some "new-secret")
                                     JUndefined)
                            (steady 900 0) alice_with_code)))) = 200
  /\ fst (@login ToyBcrypt
            (request "alice@example.com" (Some "old-secret") JUndefined)
            (steady 900 0)
            (snd (@reset_password ToyBcrypt
                    (request "Alice@Example.com" (Some "new-secret") JUndefined)
                    (steady 900 0) alice_with_code)))
     = json 400 "Invalid email or password".
Proof.
  split; [reflexivity|].
  destruct (@reset_password_clears_otp ToyBcrypt
              (request "Alice@Example.com" (Some "new-secret") JUndefined)
              (steady 900 0) alice_with_code eq_refl)
    as (u & p & u' & L & Hp & Hu & _ & _ & _ & Hv & Hl).
  inversion Hp; subst p. vm_compute in L. inversion L; subst u. clear L Hp.
  split; [|split].
  - apply (Hv _ _ _ "123456"); reflexivity.
  - apply (Hl _ _ _ "new-secret"); reflexivity.
  - apply (Hl _ _ _ "old-secret"); try reflexivity.
    rewrite Hu. reflexivity.
Defined.

(** ** The code an issuance stores *)

(** An issuance that returns has stored the drawn code where the next lookup
    finds it. *)
Lemma issue_stores_drawn_code (mail : string) (e : Env) (w : World)
    (r : OtpResult) :
  fst (generateAndSendOtp mail e w) = Return r ->
  exists u',
    lookup (normalize (Some mail)) (users (snd (generateAndSendOtp mail e w)))
    = Some u'
    /\ otp u' = Val (drawn_code e w).
Proof.
  intros Hr.
  destruct (issue_return_inv mail e w r Hr) as (u & F1 & L & A & F2 & F3).
  rewrite (issue_success mail e w u F1 L A F2 F3). cbn [snd users].
  exists (issued_record e w u). split; [|reflexivity].
  apply (lookup_replace_user _ _ u); auto.
Qed.

(** Whether an issuance returns does not depend on the random draw. *)
Lemma issue_return_with_random (mail : string) (e : Env) (w : World)
    (r : OtpResult) (k : Z) :
  fst (generateAndSendOtp mail e w) = Return r ->
  fst (generateAndSendOtp mail (with_random e k) w) = Return r.
Proof.
  intros Hr.
  destruct (issue_return_inv mail e w r Hr) as (u & F1 & L & A & F2 & F3).
  rewrite (issue_success mail e w u F1 L A F2 F3) in Hr.
  rewrite (issue_success mail (with_random e k) w u F1 L A F2 F3).
  exact Hr.
Qed.

(** C4 (as amended).  An issuance that returns has stored, as a string, the
    decimal form of an integer from 100000 to 999999: six digits, the first
    of which is not zero.  The stored code equals a candidate only as that
    string, not as the number.  Every integer from 100000 to 999999 is the
    stored code for some result of [Math.random()]. *)
Theorem issued_code_six_digits (mail : string) (e : Env) (w : World)
    (r : OtpResult) :
  fst (generateAndSendOtp mail e w) = Return r ->
  (exists u' n,
     lookup (normalize (Some mail)) (users (snd (generateAndSendOtp mail e w)))
     = Some u'
     /\ otp u' = Val (Number_toString n)
     /\ 100000 <= n <= 999999
     /\ six_digits_no_leading_zero (Number_toString n) = true
     /\ strict_eq (js_of_field (otp u')) (JStr (Number_toString n)) = true
     /\ strict_eq (js_of_field (otp u')) (JNum n) = false)
  /\ (forall n, 100000 <= n <= 999999 ->
      exists k u',
        0 <= k < 2 ^ 53
        /\ fst (generateAndSendOtp mail (with_random e k) w) = Return r
        /\ lookup (normalize (Some mail))
                  (users (snd (generateAndSendOtp mail (with_random e k) w)))
           = Some u'
        /\ otp u' = Val (Number_toString n)).
Proof.
  intros Hr. split.
  - destruct (issue_stores_drawn_code mail e w r Hr) as (u' & L & Ho).
    destruct (drawn_code_shape e w) as (n & Hn & Hrange & Hshape).
    exists u', n. rewrite Ho. rewrite Hn in *. cbn [js_of_field strict_eq].
    rewrite String.eqb_refl. repeat split; tauto.
  - intros n Hn.
    destruct (otp_number_onto n Hn) as (k & Hk & Hotp).
    pose proof (issue_return_with_random mail e w r k Hr) as Hr'.
    destruct (issue_stores_drawn_code mail _ w r Hr') as (u' & L & Ho).
    exists k, u'. repeat split; try tauto.
    rewrite Ho. unfold drawn_code, with_random. cbn [random].
    rewrite Z.mod_small by exact Hk. now rewrite Hotp.
Qed.

Lemma issued_code_six_digits_witness :
  fst (generateAndSendOtp "alice@example.com" (steady 70000 0) alice_after_issue)
  = Return (mkOtpResult "OTP sent to email" 60)
  /\ exists k u',
       lookup "alice@example.com"
         (users (snd (generateAndSendOtp "alice@example.com"
                        (with_random (steady 70000 0) k) alice_after_issue)))
       = Some u'
       /\ otp u' = Val "999999".
Proof.
  split; [reflexivity|].
  destruct (issued_code_six_digits "alice@example.com" (steady 70000 0)
              alice_after_issue (mkOtpResult "OTP sent to email" 60) eq_refl)
    as [_ H].
  assert (Hn : 100000 <= 999999 <= 999999) by (split; discriminate).
  destruct (H 999999 Hn) as (k & u' & _ & _ & L & Ho).
  exists k, u'. split; [exact L|exact Ho].
Defined.

(** C4 fails as stated: no issuance stores the code [000000]. *)
Lemma code_000000_never_issued :
  ~ (exists mail e w r u',
       fst (generateAndSendOtp mail e w) = Return r
       /\ lookup (normalize (Some mail))
                 (users (snd (generateAndSendOtp mail e w))) = Some u'
       /\ otp u' = Val "000000").
Proof.
  intros (mail & e & w & r & u' & Hr & L & Ho).
  destruct (issue_stores_drawn_code mail e w r Hr) as (v & L' & Hv).
  rewrite L in L'. inversion L'; subst v. rewrite Ho in Hv.
  destruct (drawn_code_shape e w) as (n & _ & _ & Hshape).
  inversion Hv as [Hc]. rewrite <- Hc in Hshape. discriminate.
Qed.

(** * Further properties of the handlers *)

Lemma lookup_app_last (mail : string) (us : list User) (u : User) :
  lookup mail us = None ->
  email u = mail ->
  lookup mail (us ++ [u]) = Some u.
Proof.
  intros Hn Hu. induction us as [|v us IH]; simpl in *.
  - now rewrite Hu, String.eqb_refl.
  - destruct (String.eqb (email v) mail); [discriminate|auto].
Qed.

Lemma lookup_email (mail : string) (us : list User) (u : User) :
  lookup mail us = Some u -> In u us /\ email u = mail.
Proof.
  intros H. apply find_some in H. destruct H as [Hin He].
  apply String.eqb_eq in He. auto.
Qed.

Lemma lookup_none_not_in (mail : string) (us : list User) :
  lookup mail us = None -> ~ In mail (map email us).
Proof.
  intros H Hin. apply in_map_iff in Hin. destruct Hin as (v & Hv & Hin).
  apply (find_none _ _ H) in Hin. simpl in Hin.
  rewrite Hv, String.eqb_refl in Hin. discriminate.
Qed.

(** Closes one branch of a handler: the answer is known, the side conditions
    are equations between constructors. *)
Ltac branch :=
  cbn; repeat split; intros;
  repeat match goal with
         | H : _ /\ _ |- _ => destruct H
         | H : exists _, _ |- _ => destruct H
         end;
  try discriminate; try congruence; try contradiction; eauto.

Section MoreWithHasher.

Context `{B : Bcrypt}.

(** ** [POST /login] *)

Lemma login_keeps_users (b : body.t) (e : Env) (w : World) :
  users (snd (login b e w)) = users w
  /\ next_id (snd (login b e w)) = next_id w.
Proof.
  rewrite login_run. cbv zeta.
  destruct (fault e (awaited w)); [cbn; auto|].
  destruct (find _ (users w)) as [u|]; [|cbn; auto].
  destruct (body.password b) as [q|]; [|cbn; auto].
  destruct (compare q (password u)); cbn; auto.
Qed.

(** X1.  A login changes nothing: the collection, the write log, the outbox
    and the next identifier are as before.  When the lookup does not fail
    and a password was sent, an unknown address and a wrong password get the
    very same answer. *)
Theorem login_reads_only_and_hides_cause (b : body.t) (e : Env) (w : World) :
  (users (snd (login b e w)) = users w
   /\ writes (snd (login b e w)) = writes w
   /\ outbox (snd (login b e w)) = outbox w
   /\ next_id (snd (login b e w)) = next_id w)
  /\ (forall q,
        fault e (awaited w) = None ->
        body.password b = Some q ->
        lookup (normalize (body.email b)) (users w) = None
        \/ (exists u, lookup (normalize (body.email b)) (users w) = Some u
                      /\ compare q (password u) = false) ->
        fst (login b e w) = json 400 "Invalid email or password").
Proof.
  rewrite login_run. cbv zeta. split.
  - destruct (fault e (awaited w)); [cbn; auto|].
    destruct (find _ (users w)) as [u|]; [|cbn; auto].
    destruct (body.password b) as [q|]; [|cbn; auto].
    destruct (compare q (password u)); cbn; auto.
  - intros q -> -> [-> | (u & -> & ->)]; reflexivity.
Qed.

(** X2.  A successful login answers with every stored property of the
    document except [password]: the answer holds exactly the properties of
    the document whose key is not [password], each with its stored value and
    in the stored order; so the identifier and the address are there, and so
    are a stored code and its expiry. *)
Theorem login_answers_all_but_password (b : body.t) (e : Env) (w : World) :
  status (fst (login b e w)) = 200 ->
  exists u o,
    lookup (normalize (body.email b)) (users w) = Some u
    /\ user (fst (login b e w)) = Some o
    /\ o = ([("_id", OId (_id u))]
            ++ prop_opt "fullName" (fullName u)
            ++ prop_opt "username" (username u)
            ++ [("email", OStr (email u))]
            ++ prop_opt "phone" (phone u)
            ++ prop_opt "address" (address u)
            ++ [("__v", ONum 0)]
            ++ prop_field "otp" OStr (otp u)
            ++ prop_field "otpExpiry" ODate (otpExpiry u)
            ++ prop_field "otpResendCooldown" ODate (otpResendCooldown u))%list
    /\ (forall k v, In (k, v) o <-> In (k, v) (toObject u) /\ k <> "password")
    /\ has_key "password" o = false
    /\ In ("_id", OId (_id u)) o
    /\ In ("email", OStr (email u)) o
    /\ (forall c, otp u = Val c -> In ("otp", OStr c) o)
    /\ (forall t, otpExpiry u = Val t -> In ("otpExpiry", ODate t) o).
Proof.
  rewrite login_run. cbv zeta.
  destruct (fault e (awaited w)); [discriminate|].
  destruct (find _ (users w)) as [u|]; [|discriminate].
  destruct (body.password b) as [q|]; [|discriminate].
  destruct (compare q (password u)); [|discriminate].
  intros _. exists u, (rest_without "password" (toObject u)).
  cbn [fst user].
  split; [reflexivity|]. split; [reflexivity|].
  split.
  { unfold rest_without, toObject.
    destruct (fullName u), (username u), (phone u), (address u), (otp u),
      (otpExpiry u), (otpResendCooldown u); reflexivity. }
  split.
  { intros k v. unfold rest_without. rewrite filter_In. cbn [fst].
    split; intros [Hin Hk]; (split; [exact Hin|]).
    - intros ->. discriminate.
    - apply Bool.negb_true_iff. now apply String.eqb_neq. }
  split; [apply has_key_rest_without|].
  unfold rest_without, toObject.
  split; [|split; [|split]].
  - apply filter_In. split; [|reflexivity]. rewrite !in_app_iff. simpl. tauto.
  - apply filter_In. split; [|reflexivity]. rewrite !in_app_iff. simpl. tauto.
  - intros c Hc. apply filter_In. split; [|reflexivity].
    rewrite !in_app_iff, Hc. simpl. auto 20.
  - intros t Ht. apply filter_In. split; [|reflexivity].
    rewrite !in_app_iff, Ht. simpl. auto 20.
Qed.

(** ** [POST /register] *)

(** X3.  A registration is answered 201 exactly when the lookup does not
    fail, no document has the normalized address, the password is a string
    and the write is not rejected; no other property of the body is needed.
    Every other answer is 400 and leaves the collection as it was. *)
Theorem register_created_iff (b : body.t) (e : Env) (w : World) :
  (status (fst (register b e w)) = 201 <->
   fault e (awaited w) = None
   /\ lookup (normalize (body.email b)) (users w) = None
   /\ (exists p, body.password b = Some p)
   /\ fault e (S (awaited w)) = None)
  /\ (status (fst (register b e w)) <> 201 ->
      status (fst (register b e w)) = 400
      /\ users (snd (register b e w)) = users w).
Proof.
  rewrite register_run. cbv zeta.
  destruct (fault e (awaited w)); [branch|].
  destruct (find _ (users w)) as [u|]; [branch|].
  destruct (body.password b) as [p|]; [|branch].
  destruct (fault e (S (awaited w))); branch.
Qed.

(** X4.  Register, then log in: after a registration answered 201, in every
    later world holding the resulting collection a login under an address
    with the same normal form succeeds exactly when the hasher accepts the
    submitted password against the hash made at registration; it does for
    the registered password. *)
Theorem register_then_login (b b2 : body.t) (e : Env) (w w2 : World) :
  status (fst (register b e w)) = 201 ->
  users w2 = users (snd (register b e w)) ->
  normalize (body.email b2) = normalize (body.email b) ->
  fault e (awaited w2) = None ->
  exists p,
    body.password b = Some p
    /\ (forall q, body.password b2 = Some q ->
          (status (fst (login b2 e w2)) = 200
           <-> compare q (hash p (salts e (salted w))) = true))
    /\ (body.password b2 = Some p -> status (fst (login b2 e w2)) = 200).
Proof.
  intros H1 Hus Hn Hf. rewrite register_run in H1, Hus. cbv zeta in *.
  destruct (fault e (awaited w)); [discriminate|].
  destruct (find _ (users w)) as [u|] eqn:L; [discriminate|].
  destruct (body.password b) as [p|]; [|discriminate].
  destruct (fault e (S (awaited w))); [discriminate|].
  cbn [snd users] in Hus. clear H1.
  set (u1 := mkUser (next_id w) (body.fullName b) (body.username b)
                    (normalize (body.email b)) (body.phone b)
                    (body.address b) (hash p (salts e (salted w)))
                    Unset Unset Unset) in *.
  assert (L2 : lookup (normalize (body.email b)) (users w ++ [u1]) = Some u1)
    by (apply lookup_app_last; [exact L|reflexivity]).
  exists p. split; [reflexivity|].
  assert (Hq : forall q, body.password b2 = Some q ->
                 (status (fst (login b2 e w2)) = 200
                  <-> compare q (hash p (salts e (salted w))) = true)).
  { intros q Hq. rewrite login_run. cbv zeta.
    rewrite Hf, Hus, Hn, L2, Hq.
    cbn [password u1].
    destruct (compare q _); cbn; split; intros; try discriminate; reflexivity. }
  split; [exact Hq|].
  intros Hp. apply (Hq p Hp). apply compare_hash.
Qed.

(** ** [POST /reset-password] *)

(** X5.  A password reset is answered 200 exactly when the lookup does not
    fail, a document has the normalized address, the password is a string
    and the write is not rejected: neither the OTP paths of the document nor
    the [otp] property of the body are consulted.  It is answered 404
    exactly when the lookup succeeds and finds no document.  Every answer
    other than 200 leaves the collection as it was. *)
Theorem reset_password_needs_no_code (b : body.t) (e : Env) (w : World) :
  (status (fst (reset_password b e w)) = 200 <->
   fault e (awaited w) = None
   /\ (exists u, lookup (normalize (body.email b)) (users w) = Some u)
   /\ (exists p, body.password b = Some p)
   /\ fault e (S (awaited w)) = None)
  /\ (status (fst (reset_password b e w)) = 404 <->
      fault e (awaited w) = None
      /\ lookup (normalize (body.email b)) (users w) = None)
  /\ (status (fst (reset_password b e w)) <> 200 ->
      users (snd (reset_password b e w)) = users w)
  /\ (forall candidate,
        reset_password
          (body.mk (body.fullName b) (body.username b) (body.email b)
                   (body.phone b) (body.address b) (body.password b)
                   candidate) e w
        = reset_password b e w).
Proof.
  split; [|split; [|split]]; try (intros; reflexivity);
    rewrite reset_password_run; cbv zeta.
  - destruct (fault e (awaited w)); [branch|].
    destruct (find _ (users w)) as [u|]; [|branch].
    destruct (body.password b) as [p|]; [|branch].
    destruct (fault e (S (awaited w))); branch.
  - destruct (fault e (awaited w)); [branch|].
    destruct (find _ (users w)) as [u|]; [|branch].
    destruct (body.password b) as [p|]; [|branch].
    destruct (fault e (S (awaited w))); branch.
  - destruct (fault e (awaited w)); [branch|].
    destruct (find _ (users w)) as [u|]; [|branch].
    destruct (body.password b) as [p|]; [|branch].
    destruct (fault e (S (awaited w))); branch.
Qed.

(** ** [generateAndSendOtp] and the routes that call it *)

Lemma cooldown_active_true (u : User) (now : Z) :
  cooldown_active u now = true <->
  exists c, otpResendCooldown u = Val c /\ now < c.
Proof.
  unfold cooldown_active.
  destruct (otpResendCooldown u) as [| |c]; simpl.
  - split; [discriminate|]. intros (c & H & _). discriminate.
  - split; [discriminate|]. intros (c & H & _). discriminate.
  - rewrite Z.ltb_lt. split.
    + intros H. now exists c.
    + intros (c' & H & Hlt). now inversion H; subst.
Qed.

(** Every way an issuance can go. *)
Lemma issue_cases (mail : string) (e : Env) (w : World) :
  let res := generateAndSendOtp mail e w in
  let found := lookup (normalize (Some mail)) (users w) in
  (exists err,
      fault e (awaited w) = Some err /\ fst res = Throw err
      /\ users (snd res) = users w /\ outbox (snd res) = outbox w)
  \/ (fault e (awaited w) = None /\ found = None
      /\ fst res = Throw (Error "User not found")
      /\ users (snd res) = users w /\ outbox (snd res) = outbox w)
  \/ (exists u c,
        fault e (awaited w) = None /\ found = Some u
        /\ otpResendCooldown u = Val c /\ clock e (reads w) < c
        /\ fst res
           = Throw (Error (wait_message
                             (ceil_div (c - clock e (S (reads w))) 1000)))
        /\ users (snd res) = users w /\ outbox (snd res) = outbox w)
  \/ (exists u err,
        fault e (awaited w) = None /\ found = Some u
        /\ cooldown_active u (clock e (reads w)) = false
        /\ fault e (S (awaited w)) = Some err
        /\ fst res = Throw err
        /\ users (snd res) = users w /\ outbox (snd res) = outbox w)
  \/ (exists u err,
        fault e (awaited w) = None /\ found = Some u
        /\ cooldown_active u (clock e (reads w)) = false
        /\ fault e (S (awaited w)) = None
        /\ fault e (S (S (awaited w))) = Some err
        /\ fst res = Throw err
        /\ users (snd res) = replace_user (issued_record e w u) (users w)
        /\ outbox (snd res) = outbox w)
  \/ (exists u,
        fault e (awaited w) = None /\ found = Some u
        /\ cooldown_active u (clock e (reads w)) = false
        /\ fault e (S (awaited w)) = None
        /\ fault e (S (S (awaited w))) = None
        /\ fst res = Return (mkOtpResult "OTP sent to email" 60)
        /\ users (snd res) = replace_user (issued_record e w u) (users w)
        /\ outbox (snd res)
           = (outbox w ++ [mkMail (normalize (Some mail)) "Password Reset OTP"
                                  (drawn_code e w)])%list).
Proof.
  cbv zeta.
  destruct (fault e (awaited w)) as [err|] eqn:F1.
  { left. exists err. split; [reflexivity|].
    unfold generateAndSendOtp. run. rewrite F1. cbn. auto. }
  right.
  destruct (lookup (normalize (Some mail)) (users w)) as [u|] eqn:L.
  2:{ left. unfold generateAndSendOtp. run. rewrite F1. run. rewrite L.
      cbn. auto. }
  right.
  destruct (cooldown_active u (clock e (reads w))) eqn:A.
  { left. apply cooldown_active_true in A. destruct A as (c & Hc & Hlt).
    exists u, c. rewrite (issue_throttled mail e w u c F1 L Hc Hlt).
    cbn. auto 10. }
  right.
  destruct (fault e (S (awaited w))) as [err|] eqn:F2.
  { left. exists u, err.
    destruct (issue_write_rejected mail e w u err F1 L A F2) as (H1 & H2 & H3).
    auto 10. }
  right.
  destruct (fault e (S (S (awaited w)))) as [err|] eqn:F3.
  { left. exists u, err.
    destruct (issue_mail_rejected mail e w u err F1 L A F2 F3)
      as (H1 & H2 & H3).
    auto 10. }
  right. exists u.
  rewrite (issue_success mail e w u F1 L A F2 F3). cbn. auto 10.
Qed.

(** X6.  An issuance sends exactly one message when it returns and none
    when it throws.  The message goes to the normalized address and carries
    the very code that was stored.  When it throws, the collection is as it
    was, except when it is the mail transport that rejected: then the code
    and both timestamps are already stored. *)
Theorem issue_mails_the_stored_code (mail : string) (e : Env) (w : World) :
  let res := generateAndSendOtp mail e w in
  (forall r, fst res = Return r ->
     exists u' m,
       outbox (snd res) = (outbox w ++ [m])%list
       /\ to m = normalize (Some mail)
       /\ lookup (normalize (Some mail)) (users (snd res)) = Some u'
       /\ otp u' = Val (code m))
  /\ (forall err, fst res = Throw err ->
        outbox (snd res) = outbox w
        /\ (users (snd res) = users w
            \/ exists u,
                 lookup (normalize (Some mail)) (users w) = Some u
                 /\ fault e (S (awaited w)) = None
                 /\ fault e (S (S (awaited w))) = Some err
                 /\ users (snd res)
                    = replace_user (issued_record e w u) (users w))).
Proof.
  cbv zeta.
  destruct (issue_cases mail e w)
    as [(err & F & R & U & O)
       |[(F & L & R & U & O)
        |[(u & c & F & L & Hc & Hlt & R & U & O)
         |[(u & err & F & L & A & F2 & R & U & O)
          |[(u & err & F & L & A & F2 & F3 & R & U & O)
           |(u & F & L & A & F2 & F3 & R & U & O)]]]]];
    rewrite R, U, O; split; intros x Hx; try discriminate; try (split; auto).
  - inversion Hx; subst x. right. exists u. auto.
  - exists (issued_record e w u), (mkMail (normalize (Some mail))
                                          "Password Reset OTP" (drawn_code e w)).
    repeat split.
    apply (lookup_replace_user _ _ u); auto.
Qed.

(** X7.  [/forgot-password] tells whether an address is registered: when the
    lookup does not fail it answers 404 [User not found] if no document has
    the normalized address, and, as long as no rejected operation carries
    that very message, 200 or 500 if one has. *)
Theorem forgot_password_reveals_registration (b : body.t) (e : Env)
    (w : World) :
  fault e (awaited w) = None ->
  (lookup (normalize (body.email b)) (users w) = None ->
   fst (forgot_password b e w) = json 404 "User not found"
   /\ users (snd (forgot_password b e w)) = users w
   /\ outbox (snd (forgot_password b e w)) = outbox w)
  /\ (forall u,
        lookup (normalize (body.email b)) (users w) = Some u ->
        (forall i err, fault e i = Some err ->
                       err_message err <> "User not found") ->
        status (fst (forgot_password b e w)) = 200
        \/ status (fst (forgot_password b e w)) = 500).
Proof.
  intros F. rewrite forgot_password_run.
  pose proof (issue_cases (normalize (body.email b)) e w) as C.
  cbv zeta in C. rewrite normalize_idempotent in C.
  destruct (generateAndSendOtp (normalize (body.email b)) e w) as [o w'].
  cbn [fst snd] in *.
  destruct C
    as [(err & F' & R & U & O)
       |[(_ & L & R & U & O)
        |[(u & c & _ & L & Hc & Hlt & R & U & O)
         |[(u & err & _ & L & A & F2 & R & U & O)
          |[(u & err & _ & L & A & F2 & F3 & R & U & O)
           |(u & _ & L & A & F2 & F3 & R & U & O)]]]]];
    subst o; try congruence; split; try congruence.
  - intros _. cbn. auto.
  - intros u' _ _. right. reflexivity.
  - intros u' _ Hm. right. cbn.
    destruct (String.eqb (err_message err) "User not found") eqn:E;
      [|reflexivity].
    apply String.eqb_eq in E. now apply Hm in F2.
  - intros u' _ Hm. right. cbn.
    destruct (String.eqb (err_message err) "User not found") eqn:E;
      [|reflexivity].
    apply String.eqb_eq in E. now apply Hm in F3.
  - intros u' _ _. left. reflexivity.
Qed.

(** X8.  Issue, then validate: after an issuance returned, in every later
    world holding the resulting collection, a validation for the same
    address whose lookup does not fail accepts the mailed code as long as
    the clock does not read past the stored expiry, answers [OTP has
    expired] once it does, and answers [Invalid OTP] for every other string.
    The expiry is 300000 ms after a clock reading taken during the
    issuance. *)
Theorem issue_then_verify (mail : string) (e : Env) (w w2 : World)
    (r : OtpResult) (b2 : body.t) :
  fst (generateAndSendOtp mail e w) = Return r ->
  users w2 = users (snd (generateAndSendOtp mail e w)) ->
  normalize (body.email b2) = normalize (Some mail) ->
  fault e (awaited w2) = None ->
  exists m n,
    outbox (snd (generateAndSendOtp mail e w)) = (outbox w ++ [m])%list
    /\ (reads w <= n < reads (snd (generateAndSendOtp mail e w)))%nat
    /\ (body.otp b2 = JStr (code m) ->
        clock e (reads w2) <= clock e n + 300000 ->
        fst (verify_otp b2 e w2) = json 200 "OTP verified successfully")
    /\ (body.otp b2 = JStr (code m) ->
        clock e n + 300000 < clock e (reads w2) ->
        fst (verify_otp b2 e w2) = json 400 "OTP has expired")
    /\ (forall c, body.otp b2 = JStr c -> c <> code m ->
                  fst (verify_otp b2 e w2) = json 400 "Invalid OTP").
Proof.
  intros Hr Hus Hn Hf.
  destruct (issue_return_inv mail e w r Hr) as (u & F1 & L & A & F2 & F3).
  rewrite (issue_success mail e w u F1 L A F2 F3) in *.
  cbn [fst snd users outbox reads] in *.
  assert (L' : lookup (normalize (Some mail))
                      (replace_user (issued_record e w u) (users w))
               = Some (issued_record e w u))
    by (apply (lookup_replace_user _ _ u); auto).
  exists (mkMail (normalize (Some mail)) "Password Reset OTP"
                 (drawn_code e w)), (reads w + check_reads u)%nat.
  cbn [code]. split; [reflexivity|]. split; [lia|].
  rewrite verify_otp_run. cbv zeta. rewrite Hf, Hus, Hn, L'.
  unfold issued_record, with_otp. cbn [otp otpExpiry js_of_field date_lt].
  repeat split.
  - intros -> Hle. cbn [strict_eq]. rewrite String.eqb_refl.
    change (5 * 60 * 1000) with 300000.
    apply Z.ltb_ge in Hle. rewrite Hle. reflexivity.
  - intros -> Hlt. cbn [strict_eq]. rewrite String.eqb_refl.
    change (5 * 60 * 1000) with 300000.
    apply Z.ltb_lt in Hlt. rewrite Hlt. reflexivity.
  - intros c -> Hne. cbn [strict_eq].
    destruct (String.eqb (drawn_code e w) c) eqn:E; [|reflexivity].
    apply String.eqb_eq in E. congruence.
Qed.

(** X9.  Issue, then issue again: after an issuance returned, a further
    issuance for the same address in a later world holding the resulting
    collection is refused while the clock reads before the stored cooldown,
    which is 60000 ms after a reading taken during the first issuance; if
    the clock does not run backwards the message asks for at most 60
    seconds.  Once the clock reads the cooldown or later the further
    issuance returns, provided its write and mail go through. *)
Theorem issue_then_issue_again (mail : string) (e : Env) (w w2 : World)
    (r : OtpResult) :
  fst (generateAndSendOtp mail e w) = Return r ->
  users w2 = users (snd (generateAndSendOtp mail e w)) ->
  fault e (awaited w2) = None ->
  exists n,
    (reads w <= n < reads (snd (generateAndSendOtp mail e w)))%nat
    /\ (clock e (reads w2) < clock e n + 60000 ->
        fst (generateAndSendOtp mail e w2)
        = Throw (Error (wait_message
                          (ceil_div (clock e n + 60000
                                     - clock e (S (reads w2))) 1000)))
        /\ users (snd (generateAndSendOtp mail e w2)) = users w2
        /\ outbox (snd (generateAndSendOtp mail e w2)) = outbox w2
        /\ (clock e n <= clock e (S (reads w2)) ->
            ceil_div (clock e n + 60000 - clock e (S (reads w2))) 1000 <= 60))
    /\ (clock e n + 60000 <= clock e (reads w2) ->
        fault e (S (awaited w2)) = None ->
        fault e (S (S (awaited w2))) = None ->
        fst (generateAndSendOtp mail e w2)
        = Return (mkOtpResult "OTP sent to email" 60)).
Proof.
  intros Hr Hus Hf.
  destruct (issue_return_inv mail e w r Hr) as (u & F1 & L & A & F2 & F3).
  rewrite (issue_success mail e w u F1 L A F2 F3) in *.
  cbn [fst snd users outbox reads] in *.
  assert (L' : lookup (normalize (Some mail)) (users w2)
               = Some (issued_record e w u))
    by (rewrite Hus; apply (lookup_replace_user _ _ u); auto).
  exists (S (reads w + check_reads u)).
  split; [lia|].
  assert (Hc : otpResendCooldown (issued_record e w u)
               = Val (clock e (S (reads w + check_reads u)) + 60000))
    by reflexivity.
  split.
  - intros Hlt.
    rewrite (issue_throttled mail e w2 _ _ Hf L' Hc Hlt).
    cbn [fst snd users outbox]. repeat split.
    intros Hmono.
    pose proof (ceil_div_bounds
                  (clock e (S (reads w + check_reads u)) + 60000
                   - clock e (S (reads w2)))) as Hb.
    lia.
  - intros Hge F2' F3'.
    assert (A' : cooldown_active (issued_record e w u) (clock e (reads w2))
                 = false).
    { unfold cooldown_active. rewrite Hc. cbn. now apply Z.ltb_ge. }
    rewrite (issue_success mail e w2 _ Hf L' A' F2' F3'). reflexivity.
Qed.

(** X10.  A rejected mail still starts the cooldown: when the write of an
    issuance goes through and its mail is rejected, no message was sent, yet
    a further issuance is refused while the clock reads before the cooldown
    that was stored. *)
Theorem rejected_mail_starts_cooldown (mail : string) (e : Env) (w w2 : World)
    (u : User) (err : Err) :
  fault e (awaited w) = None ->
  lookup (normalize (Some mail)) (users w) = Some u ->
  cooldown_active u (clock e (reads w)) = false ->
  fault e (S (awaited w)) = None ->
  fault e (S (S (awaited w))) = Some err ->
  users w2 = users (snd (generateAndSendOtp mail e w)) ->
  fault e (awaited w2) = None ->
  clock e (reads w2) < clock e (S (reads w + check_reads u)) + 60000 ->
  fst (generateAndSendOtp mail e w) = Throw err
  /\ outbox (snd (generateAndSendOtp mail e w)) = outbox w
  /\ exists n,
       fst (generateAndSendOtp mail e w2) = Throw (Error (wait_message n))
       /\ outbox (snd (generateAndSendOtp mail e w2)) = outbox w2.
Proof.
  intros F1 L A F2 F3 Hus Hf Hlt.
  destruct (issue_mail_rejected mail e w u err F1 L A F2 F3) as (R & U & O).
  split; [exact R|]. split; [exact O|].
  assert (L' : lookup (normalize (Some mail)) (users w2)
               = Some (issued_record e w u))
    by (rewrite Hus, U; apply (lookup_replace_user _ _ u); auto).
  assert (Hc : otpResendCooldown (issued_record e w u)
               = Val (clock e (S (reads w + check_reads u)) + 60000))
    by reflexivity.
  eexists. rewrite (issue_throttled mail e w2 _ _ Hf L' Hc Hlt).
  cbn [fst snd outbox]. split; reflexivity.
Qed.

(** ** [POST /verify-otp] on an identity without a code *)

(** X11.  For an identity whose code was never issued, a validation request
    without the [otp] property is accepted, at any time; this holds in
    particular right after a registration.  For an identity whose code was
    cleared by a reset, a [null] candidate is answered [OTP has expired]. *)
Theorem verify_otp_without_code (b b2 : body.t) (e : Env) (w w2 : World) :
  (forall u,
     fault e (awaited w2) = None ->
     lookup (normalize (body.email b2)) (users w2) = Some u ->
     (otp u = Unset -> otpExpiry u = Unset -> body.otp b2 = JUndefined ->
      fst (verify_otp b2 e w2) = json 200 "OTP verified successfully")
     /\ (otp u = Null -> otpExpiry u = Null -> body.otp b2 = JNull ->
         0 < clock e (reads w2) ->
         fst (verify_otp b2 e w2) = json 400 "OTP has expired"))
  /\ (status (fst (register b e w)) = 201 ->
      users w2 = users (snd (register b e w)) ->
      normalize (body.email b2) = normalize (body.email b) ->
      fault e (awaited w2) = None ->
      body.otp b2 = JUndefined ->
      fst (verify_otp b2 e w2) = json 200 "OTP verified successfully").
Proof.
  split.
  - intros u Hf L. rewrite verify_otp_run. cbv zeta. rewrite Hf, L. split.
    + intros -> -> ->. reflexivity.
    + intros -> -> -> Hpos. cbn. apply Z.ltb_lt in Hpos. now rewrite Hpos.
  - intros H1 Hus Hn Hf Ho. rewrite register_run in H1, Hus. cbv zeta in *.
    destruct (fault e (awaited w)); [discriminate|].
    destruct (find _ (users w)) as [u|] eqn:L; [discriminate|].
    destruct (body.password b) as [p|]; [|discriminate].
    destruct (fault e (S (awaited w))); [discriminate|].
    cbn [snd users] in Hus. clear H1.
    set (u1 := mkUser (next_id w) (body.fullName b) (body.username b)
                      (normalize (body.email b)) (body.phone b)
                      (body.address b) (hash p (salts e (salted w)))
                      Unset Unset Unset) in *.
    assert (L2 : lookup (normalize (body.email b)) (users w ++ [u1])
                 = Some u1)
      by (apply lookup_app_last; [exact L|reflexivity]).
    rewrite verify_otp_run. cbv zeta. rewrite Hf, Hus, Hn, L2, Ho.
    reflexivity.
Qed.

(** ** What the routes keep invariant *)

Lemma NoDup_snoc (A : Type) (l : list A) (x : A) :
  NoDup l -> ~ In x l -> NoDup (l ++ [x]).
Proof.
  induction l as [|y l IH]; simpl; intros Hnd Hx.
  - constructor; [tauto|constructor].
  - inversion Hnd as [|? ? Hy Hnd']; subst. constructor.
    + rewrite in_app_iff. simpl. intros [H | [H | []]]; [tauto|].
      apply Hx. now left.
    + apply IH; tauto.
Qed.

Lemma map_id_replace_user (u' : User) (us : list User) :
  map _id (replace_user u' us) = map _id us.
Proof.
  unfold replace_user. induction us as [|v us IH]; simpl; [reflexivity|].
  rewrite IH. destruct (Nat.eqb (_id v) (_id u')) eqn:E; [|reflexivity].
  apply Nat.eqb_eq in E. now rewrite E.
Qed.

Lemma same_id_same_user (us : list User) (u v : User) :
  NoDup (map _id us) -> In u us -> In v us -> _id v = _id u -> v = u.
Proof.
  induction us as [|x us IH]; simpl; [tauto|].
  intros Hnd Hu Hv Hid. inversion Hnd as [|? ? Hnotin Hnd']; subst.
  destruct Hu as [-> | Hu], Hv as [-> | Hv]; auto.
  - exfalso. apply Hnotin. rewrite <- Hid. now apply in_map.
  - exfalso. apply Hnotin. rewrite Hid. now apply in_map.
Qed.

Lemma map_email_replace_user (u u' : User) (us : list User) :
  NoDup (map _id us) -> In u us -> _id u' = _id u -> email u' = email u ->
  map email (replace_user u' us) = map email us.
Proof.
  intros Hnd Hu Hid He. unfold replace_user.
  rewrite map_map. apply map_ext_in. intros v Hv.
  destruct (Nat.eqb (_id v) (_id u')) eqn:E; [|reflexivity].
  apply Nat.eqb_eq in E. rewrite Hid in E.
  rewrite (same_id_same_user us u v Hnd Hu Hv E). exact He.
Qed.

Lemma Forall_replace_user (P : User -> Prop) (u' : User) (us : list User) :
  Forall P us -> P u' -> Forall P (replace_user u' us).
Proof.
  intros Hall Hu. unfold replace_user. apply Forall_map.
  apply (Forall_impl _ (P := P)); [|exact Hall].
  intros v Hv. now destruct (Nat.eqb (_id v) (_id u')).
Qed.

Lemma issue_next_id (mail : string) (e : Env) (w : World) :
  next_id (snd (generateAndSendOtp mail e w)) = next_id w.
Proof.
  unfold generateAndSendOtp. run.
  destruct (fault e (awaited w)); run; [reflexivity|].
  destruct (find _ (users w)) as [u|]; run; [|reflexivity].
  destruct (truthy_date (otpResendCooldown u)); run.
  - destruct (date_gt (otpResendCooldown u) (clock e (reads w))); run;
      [reflexivity|].
    destruct (fault e (S (awaited w))); run; [reflexivity|].
    destruct (fault e (S (S (awaited w)))); reflexivity.
  - destruct (fault e (S (awaited w))); run; [reflexivity|].
    destruct (fault e (S (S (awaited w)))); reflexivity.
Qed.

Lemma issued_record_together (e : Env) (w : World) (u : User) :
  otp_fields_together (issued_record e w u).
Proof.
  right. right.
  destruct (drawn_code_shape e w) as (n & _ & _ & Hshape).
  unfold issued_record, with_otp. cbn [otp otpExpiry otpResendCooldown].
  eauto 10.
Qed.

(** How an issuance changes the collection. *)
Lemma issue_users_step (mail : string) (e : Env) (w : World) :
  users_step w (snd (generateAndSendOtp mail e w)).
Proof.
  pose proof (issue_next_id mail e w) as Hid.
  destruct (issue_cases mail e w)
    as [(err & F & R & U & O)
       |[(F & L & R & U & O)
        |[(u & c & F & L & Hc & Hlt & R & U & O)
         |[(u & err & F & L & A & F2 & R & U & O)
          |[(u & err & F & L & A & F2 & F3 & R & U & O)
           |(u & F & L & A & F2 & F3 & R & U & O)]]]]];
    try (apply step_same; assumption);
    apply (step_update _ _ u (issued_record e w u)); auto;
    try (apply lookup_email in L; tauto);
    apply issued_record_together.
Qed.

(** How a request changes the collection. *)
Lemma app_users_step (r : Route) (b : body.t) (e : Env) (w : World) :
  users_step w (snd (app r b e w)).
Proof.
  destruct r; unfold app.
  - rewrite register_run. cbv zeta.
    destruct (fault e (awaited w)); [now apply step_same|].
    destruct (find _ (users w)) as [u|] eqn:L; [now apply step_same|].
    destruct (body.password b) as [p|]; [|now apply step_same].
    destruct (fault e (S (awaited w))); [now apply step_same|].
    eapply step_new; try reflexivity; cbn [snd users next_id email].
    + exact L.
    + unfold normalized_email. cbn [email]. apply normalize_idempotent.
    + unfold hashed_password. cbn [password]. eauto.
  - destruct (login_keeps_users b e w) as (U & N).
    now apply step_same.
  - rewrite forgot_password_run.
    pose proof (issue_users_step (normalize (body.email b)) e w) as S.
    destruct (generateAndSendOtp _ e w) as [[x|x] w']; exact S.
  - rewrite resend_otp_run.
    pose proof (issue_users_step (normalize (body.email b)) e w) as S.
    destruct (generateAndSendOtp _ e w) as [[x|x] w']; exact S.
  - rewrite verify_otp_run. cbv zeta.
    destruct (fault e (awaited w)); [now apply step_same|].
    destruct (find _ (users w)) as [u|]; [|now apply step_same].
    destruct (strict_eq _ _); [|now apply step_same].
    destruct (date_lt _ _); now apply step_same.
  - rewrite reset_password_run. cbv zeta.
    destruct (fault e (awaited w)); [now apply step_same|].
    destruct (find _ (users w)) as [u|] eqn:L; [|now apply step_same].
    destruct (body.password b) as [p|]; [|now apply step_same].
    destruct (fault e (S (awaited w))); [now apply step_same|].
    apply lookup_email in L.
    eapply (step_update _ _ u); try reflexivity; cbn [snd users next_id].
    + tauto.
    + right. unfold hashed_password. cbn [password]. eauto.
    + right. left. auto.
Qed.

(** A property kept by every change of the collection holds after any
    sequence of requests. *)
Lemma serve_keeps (P : World -> Prop) :
  (forall w w', users_step w w' -> P w -> P w') ->
  forall rs e w, P w -> P (snd (serve rs e w)).
Proof.
  intros Hstep rs e. induction rs as [|[r b] rs IH]; intros w Hw; [exact Hw|].
  cbn [serve].
  pose proof (app_users_step r b e w) as S.
  destruct (app r b e w) as [resp w1]. cbn [snd] in S.
  specialize (IH w1 (Hstep _ _ S Hw)).
  destruct (serve rs e w1) as [resps w2]. exact IH.
Qed.

(** X12.  Whatever requests are served, identifiers stay unique and below
    the next fresh one, and no two documents ever share an address. *)
Theorem serve_keeps_identities_unique (rs : list (Route * body.t)) (e : Env)
    (w : World) :
  unique_identities w -> unique_identities (snd (serve rs e w)).
Proof.
  apply serve_keeps. clear. intros w w' S (Hid & Hmail & Hlt).
  unfold unique_identities.
  destruct S as [U N | u U N Hu L _ _ _ _ _ | u u' U N Hin Hid' He _ _];
    rewrite U, N.
  - auto.
  - rewrite !map_app. cbn [map]. repeat split.
    + apply NoDup_snoc; [exact Hid|].
      intros Hin'. apply in_map_iff in Hin'.
      destruct Hin' as (v & Hv & Hin').
      rewrite Forall_forall in Hlt. apply Hlt in Hin'. lia.
    + apply NoDup_snoc; [exact Hmail|]. now apply lookup_none_not_in.
    + apply Forall_app. split.
      * apply (Forall_impl _ (P := fun v => (_id v < next_id w)%nat));
          [intros; lia|exact Hlt].
      * constructor; [lia|constructor].
  - rewrite map_id_replace_user.
    rewrite (map_email_replace_user u u' _ Hid Hin Hid' He).
    repeat split; auto.
    apply Forall_replace_user; [exact Hlt|].
    rewrite Hid'. rewrite Forall_forall in Hlt. now apply Hlt.
Qed.

(** X13.  Whatever requests are served, the three OTP paths of every
    document stay unset together, [null] together or set together, and a
    stored code is always six digits without leading zero. *)
Theorem serve_keeps_otp_fields_together (rs : list (Route * body.t)) (e : Env)
    (w : World) :
  Forall otp_fields_together (users w) ->
  Forall otp_fields_together (users (snd (serve rs e w))).
Proof.
  apply (serve_keeps (fun w => Forall otp_fields_together (users w))).
  clear. intros w w' S Hall.
  destruct S as [U N | u U N Hu L _ _ H1 H2 H3 | u u' U N Hin Hid' He _ Ht];
    rewrite U.
  - exact Hall.
  - apply Forall_app. split; [exact Hall|].
    constructor; [|constructor]. left. auto.
  - now apply Forall_replace_user.
Qed.

(** X14.  Whatever requests are served, every stored address is its own
    normal form. *)
Theorem serve_keeps_emails_normalized (rs : list (Route * body.t)) (e : Env)
    (w : World) :
  Forall normalized_email (users w) ->
  Forall normalized_email (users (snd (serve rs e w))).
Proof.
  apply (serve_keeps (fun w => Forall normalized_email (users w))).
  clear. intros w w' S Hall.
  destruct S as [U N | u U N Hu L Hn _ _ _ _ | u u' U N Hin Hid' He _ _];
    rewrite U.
  - exact Hall.
  - apply Forall_app. split; [exact Hall|]. constructor; [exact Hn|constructor].
  - apply Forall_replace_user; [exact Hall|].
    unfold normalized_email. rewrite He.
    rewrite Forall_forall in Hall. now apply Hall.
Qed.

(** X15.  Whatever requests are served, every stored password is an output
    of the hasher. *)
Theorem serve_keeps_passwords_hashed (rs : list (Route * body.t)) (e : Env)
    (w : World) :
  Forall hashed_password (users w) ->
  Forall hashed_password (users (snd (serve rs e w))).
Proof.
  apply (serve_keeps (fun w => Forall hashed_password (users w))).
  clear. intros w w' S Hall.
  destruct S as [U N | u U N Hu L _ Hh _ _ _ | u u' U N Hin Hid' He Hp _];
    rewrite U.
  - exact Hall.
  - apply Forall_app. split; [exact Hall|]. constructor; [exact Hh|constructor].
  - apply Forall_replace_user; [exact Hall|].
    destruct Hp as [Hp | Hp]; [|exact Hp].
    unfold hashed_password. rewrite Hp.
    rewrite Forall_forall in Hall. now apply Hall.
Qed.

(** ** Requests act on one identity only *)

Lemma lookup_app_other (m : string) (us : list User) (u : User) :
  email u <> m -> lookup m (us ++ [u]) = lookup m us.
Proof.
  intros Hne. induction us as [|v us IH]; simpl.
  - destruct (String.eqb (email u) m) eqn:E; [|reflexivity].
    apply String.eqb_eq in E. contradiction.
  - now destruct (String.eqb (email v) m).
Qed.

Lemma lookup_replace_other (m : string) (us : list User) (u u' : User) :
  NoDup (map _id us) -> In u us -> _id u' = _id u -> email u' = email u ->
  email u <> m ->
  lookup m (replace_user u' us) = lookup m us.
Proof.
  intros Hnd Hin Hid He Hne.
  assert (Hall : forall v, In v us -> _id v = _id u' -> v = u).
  { intros v Hv Hvid. apply (same_id_same_user us u v Hnd Hin Hv).
    congruence. }
  clear Hnd Hin. unfold replace_user.
  induction us as [|v us IH]; simpl; [reflexivity|].
  destruct (Nat.eqb (_id v) (_id u')) eqn:E.
  - apply Nat.eqb_eq in E.
    rewrite (Hall v (or_introl eq_refl) E) in *.
    assert (E1 : String.eqb (email u') m = false)
      by (apply String.eqb_neq; congruence).
    assert (E2 : String.eqb (email u) m = false)
      by (now apply String.eqb_neq).
    rewrite E1, E2. apply IH. intros x Hx. apply Hall. now right.
  - destruct (String.eqb (email v) m); [reflexivity|].
    apply IH. intros x Hx. apply Hall. now right.
Qed.

(** X20.  A request touches only the identity it names: when identifiers
    and addresses are unique, then after any request the lookup of every
    address other than the normal form of the one in the body finds what it
    found before. *)
Theorem app_leaves_other_identities (r : Route) (b : body.t) (e : Env)
    (w : World) (m : string) :
  unique_identities w ->
  m <> normalize (body.email b) ->
  lookup m (users (snd (app r b e w))) = lookup m (users w).
Proof.
  intros (Hid & _ & _) Hne.
  assert (Hissue : lookup m (users (snd (generateAndSendOtp
                                           (normalize (body.email b)) e w)))
                   = lookup m (users w)).
  { pose proof (issue_cases (normalize (body.email b)) e w) as C.
    cbv zeta in C. rewrite normalize_idempotent in C.
    destruct C
      as [(err & F & R & U & O)
         |[(F & L & R & U & O)
          |[(u & c & F & L & Hc & Hlt & R & U & O)
           |[(u & err & F & L & A & F2 & R & U & O)
            |[(u & err & F & L & A & F2 & F3 & R & U & O)
             |(u & F & L & A & F2 & F3 & R & U & O)]]]]];
      rewrite U; try reflexivity;
      apply lookup_email in L; destruct L as [Hin He];
      apply (lookup_replace_other m _ u); auto; congruence. }
  destruct r; unfold app.
  - rewrite register_run. cbv zeta.
    destruct (fault e (awaited w)); [reflexivity|].
    destruct (lookup (normalize (body.email b)) (users w)) as [u|];
      [reflexivity|].
    destruct (body.password b) as [p|]; [|reflexivity].
    destruct (fault e (S (awaited w))); [reflexivity|].
    cbn [snd users]. apply lookup_app_other. cbn [email]. congruence.
  - destruct (login_keeps_users b e w) as [-> _]. reflexivity.
  - rewrite forgot_password_run.
    destruct (generateAndSendOtp _ e w) as [[x|x] w']; exact Hissue.
  - rewrite resend_otp_run.
    destruct (generateAndSendOtp _ e w) as [[x|x] w']; exact Hissue.
  - rewrite verify_otp_run. cbv zeta.
    destruct (fault e (awaited w)); [reflexivity|].
    destruct (lookup (normalize (body.email b)) (users w)) as [u|];
      [|reflexivity].
    destruct (strict_eq _ _); [|reflexivity].
    destruct (date_lt _ _); reflexivity.
  - rewrite reset_password_run. cbv zeta.
    destruct (fault e (awaited w)); [reflexivity|].
    destruct (lookup (normalize (body.email b)) (users w)) as [u|] eqn:L;
      [|reflexivity].
    destruct (body.password b) as [p|]; [|reflexivity].
    destruct (fault e (S (awaited w))); [reflexivity|].
    cbn [snd users]. apply lookup_email in L. destruct L as [Hin He].
    apply (lookup_replace_other m _ u); auto. congruence.
Qed.

(** X21.  A password reset lifts the cooldown: after a reset answered 200,
    an issuance for the same address in a later world holding the resulting
    collection is not throttled, whatever the clock reads; it returns when
    its lookup, write and mail go through. *)
Theorem reset_lifts_cooldown (b : body.t) (e : Env) (w w2 : World)
    (mail : string) :
  status (fst (reset_password b e w)) = 200 ->
  users w2 = users (snd (reset_password b e w)) ->
  normalize (Some mail) = normalize (body.email b) ->
  fault e (awaited w2) = None ->
  fault e (S (awaited w2)) = None ->
  fault e (S (S (awaited w2))) = None ->
  fst (generateAndSendOtp mail e w2)
  = Return (mkOtpResult "OTP sent to email" 60).
Proof.
  intros H1 Hus Hn F1 F2 F3.
  rewrite reset_password_run in H1, Hus. cbv zeta in *.
  destruct (fault e (awaited w)); [discriminate|].
  destruct (find _ (users w)) as [u|] eqn:L; [|discriminate].
  destruct (body.password b) as [p|]; [|discriminate].
  destruct (fault e (S (awaited w))); [discriminate|].
  cbn [snd users] in Hus. clear H1.
  set (u' := mkUser (_id u) (fullName u) (username u) (email u) (phone u)
                    (address u) (hash p (salts e (salted w))) Null Null Null)
    in *.
  assert (L' : lookup (normalize (Some mail)) (users w2) = Some u').
  { rewrite Hus, Hn. apply (lookup_replace_user _ _ u); auto. }
  rewrite (issue_success mail e w2 u' F1 L' eq_refl F2 F3). reflexivity.
Qed.

(** ** The two earlier servers *)

(** The handler of [/register] of the earlier servers, one branch at a
    time. *)
Lemma legacy_register_run (b : body.t) (e : Env) (w : World) :
  Legacy.register b e w =
  let tick n s := mkWorld (users w) (next_id w) (writes w) (outbox w)
                          (reads w) (draws w) s n in
  let failed err := mkResponse 400 "Error registering user" None None
                               (Some err) in
  match fault e (awaited w) with
  | Some err => (failed err, tick (S (awaited w)) (salted w))
  | None =>
      match match body.email b with
            | Some m => lookup m (users w)
            | None => None
            end with
      | Some _ => (json 400 "Email already registered",
                   tick (S (awaited w)) (salted w))
      | None =>
          match body.password b with
          | None => (failed (Error "Illegal arguments: undefined, number"),
                     tick (S (awaited w)) (salted w))
          | Some p =>
              if Legacy.required (body.fullName b)
                 && Legacy.required (body.username b)
                 && Legacy.required (body.email b)
                 && Legacy.required (body.phone b)
                 && Legacy.required (body.address b)
              then
                match fault e (S (awaited w)) with
                | Some err =>
                    (failed err, tick (S (S (awaited w))) (S (salted w)))
                | None =>
                    let u := mkUser (next_id w) (body.fullName b)
                               (body.username b) (or_empty (body.email b))
                               (body.phone b) (body.address b)
                               (hash p (salts e (salted w)))
                               Unset Unset Unset in
                    (json 201 "User registered successfully",
                     mkWorld (users w ++ [u]) (S (next_id w))
                             (writes w ++ [u]) (outbox w) (reads w) (draws w)
                             (S (salted w)) (S (S (awaited w))))
                end
              else (failed (Error "User validation failed"),
                    tick (S (awaited w)) (S (salted w)))
          end
      end
  end.
Proof.
  unfold Legacy.register, Legacy.User_findOne_raw. cbv zeta.
  destruct (body.email b) as [m|] eqn:Em; run.
  - destruct (fault e (awaited w)); run; [reflexivity|].
    destruct (find _ (users w)) as [u|] eqn:L; run; [reflexivity|].
    destruct (body.password b) as [p|]; run; [|reflexivity].
    cbn [Legacy.required]. rewrite hash_eqb_empty. cbn [negb].
    rewrite Bool.andb_true_r.
    destruct (Legacy.required (body.fullName b)
              && Legacy.required (body.username b)
              && negb (String.eqb m "")
              && Legacy.required (body.phone b)
              && Legacy.required (body.address b)); run; [|reflexivity].
    destruct (fault e (S (awaited w))); run; [reflexivity|].
    cbn [email or_empty]. rewrite existsb_lookup, L. reflexivity.
  - destruct (fault e (awaited w)); run; [reflexivity|].
    destruct (body.password b) as [p|]; run; [|reflexivity].
    cbn [Legacy.required]. rewrite !Bool.andb_false_r. cbn [andb]. run.
    reflexivity.
Qed.

(** X16.  In the two earlier servers a registration is answered 201 exactly
    when the lookup does not fail, no document has the address as it was
    sent, the password is a string, each of [fullName], [username],
    [email], [phone] and [address] is a non-empty string, and the write is
    not rejected.  Every other answer is 400 and leaves the collection as it
    was. *)
Theorem legacy_register_created_iff (b : body.t) (e : Env) (w : World) :
  (status (fst (Legacy.register b e w)) = 201 <->
   fault e (awaited w) = None
   /\ (forall m, body.email b = Some m -> lookup m (users w) = None)
   /\ (exists p, body.password b = Some p)
   /\ Legacy.required (body.fullName b) = true
   /\ Legacy.required (body.username b) = true
   /\ Legacy.required (body.email b) = true
   /\ Legacy.required (body.phone b) = true
   /\ Legacy.required (body.address b) = true
   /\ fault e (S (awaited w)) = None)
  /\ (status (fst (Legacy.register b e w)) <> 201 ->
      status (fst (Legacy.register b e w)) = 400
      /\ users (snd (Legacy.register b e w)) = users w).
Proof.
  rewrite legacy_register_run. cbv zeta.
  destruct (fault e (awaited w)); [branch|].
  destruct (body.email b) as [m|] eqn:Em.
  - destruct (find _ (users w)) as [u|] eqn:L.
    { cbn. repeat split; intros; try discriminate; try tauto.
      destruct H as (_ & H & _). specialize (H m eq_refl). congruence. }
    destruct (body.password b) as [p|]; [|branch].
    destruct (Legacy.required (body.fullName b)); [|branch].
    destruct (Legacy.required (body.username b)); [|branch].
    destruct (Legacy.required (Some m)); [|branch].
    destruct (Legacy.required (body.phone b)); [|branch].
    destruct (Legacy.required (body.address b)); [|branch].
    cbn [andb].
    destruct (fault e (S (awaited w))); [branch|].
    cbn. repeat split; intros; try tauto; try congruence; eauto.
    match goal with H : Some _ = Some _ |- _ => inversion H; subst end.
    exact L.
  - destruct (body.password b) as [p|]; [|branch].
    cbn [Legacy.required]. rewrite !Bool.andb_false_r. cbn [andb]. branch.
Qed.

(** How a request to an earlier server changes the collection. *)
Lemma legacy_app_step (r : LegacyServer.Route) (b : body.t) (e : Env)
    (w : World) :
  let w' := snd (LegacyServer.app r b e w) in
  (users w' = users w /\ next_id w' = next_id w)
  \/ exists u,
       users w' = (users w ++ [u])%list
       /\ next_id w' = S (next_id w)
       /\ _id u = next_id w
       /\ lookup (email u) (users w) = None
       /\ complete_profile u.
Proof.
  destruct r; unfold LegacyServer.app; cbv zeta.
  - rewrite legacy_register_run. cbv zeta.
    destruct (fault e (awaited w)); [left; cbn; auto|].
    destruct (body.email b) as [m|] eqn:Em.
    + destruct (find _ (users w)) as [u|] eqn:L; [left; cbn; auto|].
      destruct (body.password b) as [p|]; [|left; cbn; auto].
      destruct (Legacy.required (body.fullName b)) eqn:R1;
        [|left; cbn; auto].
      destruct (Legacy.required (body.username b)) eqn:R2;
        [|left; cbn; auto].
      destruct (Legacy.required (Some m)) eqn:R3; [|left; cbn; auto].
      destruct (Legacy.required (body.phone b)) eqn:R4; [|left; cbn; auto].
      destruct (Legacy.required (body.address b)) eqn:R5;
        [|left; cbn; auto].
      cbn [andb].
      destruct (fault e (S (awaited w))); [left; cbn; auto|].
      right. eexists. cbn [snd users next_id].
      split; [reflexivity|]. split; [reflexivity|].
      cbn [_id email or_empty]. split; [reflexivity|]. split; [exact L|].
      unfold complete_profile.
      cbn [fullName username email phone address]. auto.
    + destruct (body.password b) as [p|]; [|left; cbn; auto].
      cbn [Legacy.required]. rewrite !Bool.andb_false_r. cbn [andb].
      left. cbn. auto.
  - unfold Legacy.login, Legacy.User_findOne_raw.
    destruct (body.email b) as [m|]; run.
    + destruct (fault e (awaited w)); run; [left; auto|].
      destruct (find _ (users w)) as [u|]; run; [|left; auto].
      destruct (body.password b) as [q|]; run; [|left; auto].
      destruct (compare q (password u)); left; auto.
    + destruct (fault e (awaited w)); run; left; auto.
Qed.

(** X17.  Whatever requests an earlier server serves, no two documents
    share an address (as it was sent), identifiers stay unique, and every
    document has all five profile paths non-empty. *)
Theorem legacy_serve_keeps_profiles_complete
    (rs : list (LegacyServer.Route * body.t)) (e : Env) (w : World) :
  unique_identities w /\ Forall complete_profile (users w) ->
  unique_identities (snd (LegacyServer.serve rs e w))
  /\ Forall complete_profile (users (snd (LegacyServer.serve rs e w))).
Proof.
  revert w. induction rs as [|[r b] rs IH]; intros w Hw; [exact Hw|].
  cbn [LegacyServer.serve].
  pose proof (legacy_app_step r b e w) as S. cbv zeta in S.
  destruct (LegacyServer.app r b e w) as [resp w1]. cbn [snd] in S.
  assert (Hw1 : unique_identities w1 /\ Forall complete_profile (users w1)).
  { destruct Hw as ((Hid & Hmail & Hlt) & Hc).
    unfold unique_identities.
    destruct S as [(U & N) | (u & U & N & Hu & L & Hp)]; rewrite U, N.
    - auto.
    - rewrite !map_app. cbn [map]. repeat split.
      + apply NoDup_snoc; [exact Hid|].
        intros Hin'. apply in_map_iff in Hin'.
        destruct Hin' as (v & Hv & Hin').
        rewrite Forall_forall in Hlt. apply Hlt in Hin'. lia.
      + apply NoDup_snoc; [exact Hmail|]. now apply lookup_none_not_in.
      + apply Forall_app. split.
        * apply (Forall_impl _ (P := fun v => (_id v < next_id w)%nat));
            [intros; lia|exact Hlt].
        * constructor; [lia|constructor].
      + apply Forall_app. split; [exact Hc|]. constructor; [exact Hp|].
        constructor. }
  specialize (IH w1 Hw1).
  destruct (LegacyServer.serve rs e w1) as [resps w2]. exact IH.
Qed.

End MoreWithHasher.

(** ** Normal forms of addresses *)

Lemma no_upper_toLowerCase (s : string) : no_upper (toLowerCase s) = true.
Proof.
  induction s as [|c s IH]; [reflexivity|].
  cbn [toLowerCase no_upper]. rewrite IH, Bool.andb_true_r. clear.
  destruct c as [[] [] [] [] [] [] [] []]; reflexivity.
Qed.

Lemma starts_clean_toLowerCase (s : string) :
  starts_clean s -> starts_clean (toLowerCase s).
Proof.
  destruct s as [|c s]; simpl; [auto|]. now rewrite is_space_lower_char.
Qed.

(** X18.  The normal form of an address has no white space at either end
    and no upper-case letter, and normalizing it again changes nothing. *)
Theorem normalize_shape (x : option string) :
  starts_clean (normalize x)
  /\ starts_clean (rev_string (normalize x))
  /\ no_upper (normalize x) = true
  /\ normalize (Some (normalize x)) = normalize x.
Proof.
  unfold normalize at 1 2 3.
  destruct (trim_clean (or_empty x)) as [H1 H2].
  repeat split.
  - now apply starts_clean_toLowerCase.
  - rewrite <- toLowerCase_rev. now apply starts_clean_toLowerCase.
  - apply no_upper_toLowerCase.
  - apply normalize_idempotent.
Qed.

(** ** [POST /contact] *)

Lemma accepted_all (e : Env) (n : nat) (bs : list Contact.t) :
  (forall i, (i < List.length bs)%nat -> fault e (n + i) = None) ->
  accepted e n bs = bs.
Proof.
  revert n. induction bs as [|b bs IH]; intros n H; [reflexivity|].
  cbn [accepted]. rewrite <- (Nat.add_0_r n) at 1.
  rewrite (H 0%nat) by (simpl; lia). f_equal. apply IH.
  intros i Hi. replace (S n + i)%nat with (n + S i)%nat by lia.
  apply H. simpl. lia.
Qed.

Lemma contact_run (b : Contact.t) (e : Env) (w : World)
    (cs : list Contact.t) :
  contact b e (w, cs) =
  let w1 := mkWorld (users w) (next_id w) (writes w) (outbox w)
                    (reads w) (draws w) (salted w) (S (awaited w)) in
  match fault e (awaited w) with
  | Some _ => (json 500 "Error saving message", (w1, cs))
  | None => (json 201 "Message sent successfully!", (w1, (cs ++ [b])%list))
  end.
Proof.
  unfold contact, await. cbn [fst snd].
  destruct (fault e (awaited w)); reflexivity.
Qed.

(** X19.  Contact requests are stored without any check: after a sequence of
    them the [contacts] collection is the old one followed, in order, by
    exactly the bodies whose write was not rejected, whatever they hold and
    however often they repeat; each request gets one answer and takes one
    awaited operation; the [users] collection is untouched.  With no
    rejected write every body is stored. *)
Theorem contact_all_stores_accepted (bs : list Contact.t) (e : Env)
    (w : World) (cs : list Contact.t) :
  let res := contact_all bs e (w, cs) in
  snd (snd res) = (cs ++ accepted e (awaited w) bs)%list
  /\ List.length (fst res) = List.length bs
  /\ awaited (fst (snd res)) = (awaited w + List.length bs)%nat
  /\ users (fst (snd res)) = users w
  /\ ((forall i, (i < List.length bs)%nat ->
                 fault e (awaited w + i) = None) ->
      snd (snd res) = (cs ++ bs)%list
      /\ Forall (fun r => r = json 201 "Message sent successfully!")
                (fst res)).
Proof.
  cbv zeta. revert w cs.
  induction bs as [|b bs IH]; intros w cs.
  - cbn. rewrite app_nil_r, Nat.add_0_r. repeat split; auto.
  - cbn [contact_all]. rewrite contact_run.
    set (w1 := mkWorld (users w) (next_id w) (writes w) (outbox w)
                       (reads w) (draws w) (salted w) (S (awaited w))).
    assert (Hrest : (forall i, (i < S (List.length bs))%nat ->
                               fault e (awaited w + i) = None) ->
                    forall i, (i < List.length bs)%nat ->
                              fault e (awaited w1 + i) = None).
    { intros H i Hi. cbn [w1 awaited].
      replace (S (awaited w) + i)%nat with (awaited w + S i)%nat by lia.
      apply H. lia. }
    cbn [accepted List.length].
    destruct (fault e (awaited w)) as [err|] eqn:F.
    + specialize (IH w1 cs).
      destruct (contact_all bs e (w1, cs)) as [resps s2].
      cbn [fst snd List.length] in *.
      destruct IH as (I1 & I2 & I3 & I4 & I5).
      split; [exact I1|]. split; [lia|].
      split; [rewrite I3; cbn [w1 awaited]; lia|]. split; [exact I4|].
      intros H. specialize (H 0%nat ltac:(lia)). rewrite Nat.add_0_r in H.
      congruence.
    + specialize (IH w1 (cs ++ [b])%list).
      destruct (contact_all bs e (w1, (cs ++ [b])%list)) as [resps s2].
      cbn [fst snd List.length] in *.
      destruct IH as (I1 & I2 & I3 & I4 & I5).
      rewrite <- app_assoc in I1. cbn [app] in I1.
      split; [exact I1|]. split; [lia|].
      split; [rewrite I3; cbn [w1 awaited]; lia|]. split; [exact I4|].
      intros H. destruct (I5 (Hrest H)) as [I6 I7]. split.
      * rewrite I6, <- app_assoc. reflexivity.
      * constructor; [reflexivity|exact I7].
Qed.

Lemma login_reads_only_and_hides_cause_witness :
  fst (@login ToyBcrypt (request "nobody@example.com" (Some "x") JUndefined)
              (steady 900 0) alice_fresh)
  = fst (@login ToyBcrypt (request "alice@example.com" (Some "x") JUndefined)
                (steady 900 0) alice_fresh).
Proof.
  destruct (@login_reads_only_and_hides_cause ToyBcrypt
              (request "nobody@example.com" (Some "x") JUndefined)
              (steady 900 0) alice_fresh) as [_ H1].
  destruct (@login_reads_only_and_hides_cause ToyBcrypt
              (request "alice@example.com" (Some "x") JUndefined)
              (steady 900 0) alice_fresh) as [_ H2].
  rewrite (H1 "x" eq_refl eq_refl (or_introl eq_refl)).
  rewrite (H2 "x" eq_refl eq_refl
              (or_intror (ex_intro _ (alice Unset Unset Unset)
                                   (conj eq_refl eq_refl)))).
  reflexivity.
Defined.

Lemma login_answers_all_but_password_witness :
  status (fst (@login ToyBcrypt
                 (request "alice@example.com" (Some "old-secret") JUndefined)
                 (steady 900 0) alice_with_code)) = 200
  /\ exists o,
       user (fst (@login ToyBcrypt
                    (request "alice@example.com" (Some "old-secret")
                             JUndefined)
                    (steady 900 0) alice_with_code)) = Some o
       /\ has_key "password" o = false
       /\ In ("otp", OStr "123456") o.
Proof.
  split; [reflexivity|].
  destruct (@login_answers_all_but_password ToyBcrypt
              (request "alice@example.com" (Some "old-secret") JUndefined)
              (steady 900 0) alice_with_code eq_refl)
    as (u & o & L & Ho & _ & _ & Hk & _ & _ & Hotp & _).
  vm_compute in L. inversion L; subst u. clear L.
  exists o. split; [exact Ho|]. split; [exact Hk|].
  apply Hotp. reflexivity.
Defined.

Lemma register_created_iff_witness :
  status (fst (@register ToyBcrypt bob_registers (steady 900 0) alice_fresh))
  = 201.
Proof.
  destruct (@register_created_iff ToyBcrypt bob_registers (steady 900 0)
              alice_fresh) as [[_ H] _].
  apply H. repeat split. now exists "bobs-secret".
Defined.

Lemma register_then_login_witness :
  status (fst (@register ToyBcrypt bob_registers (steady 900 0) alice_fresh))
  = 201
  /\ status (fst (@login ToyBcrypt bob_logs_in (steady 900 0)
                    (snd (@register ToyBcrypt bob_registers (steady 900 0)
                            alice_fresh)))) = 200.
Proof.
  split; [reflexivity|].
  destruct (@register_then_login ToyBcrypt bob_registers bob_logs_in
              (steady 900 0) alice_fresh
              (snd (@register ToyBcrypt bob_registers (steady 900 0)
                      alice_fresh))
              eq_refl eq_refl eq_refl eq_refl) as (p & Hp & _ & H).
  inversion Hp; subst p. apply H. reflexivity.
Defined.

Lemma register_same_address_conflict_witness :
  status (fst (@register ToyBcrypt bob_registers (steady 900 0) alice_fresh))
  = 201
  /\ fst (@register ToyBcrypt
            (request "bob@example.com" (Some "other") JUndefined)
            (steady 900 0)
            (snd (@register ToyBcrypt bob_registers (steady 900 0)
                    alice_fresh)))
     = json 400 "Email already registered".
Proof.
  split; [reflexivity|].
  destruct (@register_same_address_conflict ToyBcrypt bob_registers
              (request "bob@example.com" (Some "other") JUndefined)
              (steady 900 0) alice_fresh eq_refl eq_refl)
    as (_ & _ & _ & H).
  apply H. reflexivity.
Defined.

Lemma reset_password_needs_no_code_witness :
  status (fst (@reset_password ToyBcrypt
                 (request "alice@example.com" (Some "new") JUndefined)
                 (steady 900 0) alice_fresh)) = 200.
Proof.
  destruct (@reset_password_needs_no_code ToyBcrypt
              (request "alice@example.com" (Some "new") JUndefined)
              (steady 900 0) alice_fresh) as [[_ H] _].
  apply H. repeat split.
  - now exists (alice Unset Unset Unset).
  - now exists "new".
Defined.

Lemma issue_mails_the_stored_code_witness :
  exists u' m,
    outbox (snd (generateAndSendOtp "alice@example.com" (steady 900 0)
                                    alice_fresh)) = [m]
    /\ lookup "alice@example.com"
         (users (snd (generateAndSendOtp "alice@example.com" (steady 900 0)
                                         alice_fresh))) = Some u'
    /\ otp u' = Val (code m).
Proof.
  destruct (issue_mails_the_stored_code "alice@example.com" (steady 900 0)
              alice_fresh) as [H _].
  destruct (H (mkOtpResult "OTP sent to email" 60) eq_refl)
    as (u' & m & Ho & _ & L & Hc).
  exists u', m. split; [exact Ho|]. split; [exact L|exact Hc].
Defined.

Lemma forgot_password_reveals_registration_witness :
  fst (forgot_password (request "nobody@example.com" None JUndefined)
                       (steady 900 0) alice_fresh)
  = json 404 "User not found"
  /\ status (fst (forgot_password
                    (request "alice@example.com" None JUndefined)
                    (steady 900 0) alice_fresh)) <> 404.
Proof.
  split.
  - destruct (forgot_password_reveals_registration
                (request "nobody@example.com" None JUndefined)
                (steady 900 0) alice_fresh eq_refl) as [H _].
    apply H. reflexivity.
  - destruct (forgot_password_reveals_registration
                (request "alice@example.com" None JUndefined)
                (steady 900 0) alice_fresh eq_refl) as [_ H].
    destruct (H (alice Unset Unset Unset) eq_refl) as [-> | ->];
      discriminate.
Defined.

Lemma issue_then_verify_witness :
  fst (verify_otp (request "alice@example.com" None (JStr "100000"))
                  (steady 900 0)
                  (snd (generateAndSendOtp "alice@example.com" (steady 900 0)
                                           alice_fresh)))
  = json 200 "OTP verified successfully".
Proof.
  destruct (issue_then_verify "alice@example.com" (steady 900 0) alice_fresh
              (snd (generateAndSendOtp "alice@example.com" (steady 900 0)
                                       alice_fresh))
              (mkOtpResult "OTP sent to email" 60)
              (request "alice@example.com" None (JStr "100000"))
              eq_refl eq_refl eq_refl eq_refl)
    as (m & n & Ho & _ & H & _).
  vm_compute in Ho. inversion Ho; subst m. clear Ho.
  apply H; [reflexivity|]. cbn. discriminate.
Defined.

Lemma issue_then_issue_again_witness :
  fst (generateAndSendOtp "alice@example.com" (steady 900 0)
         (snd (generateAndSendOtp "alice@example.com" (steady 900 0)
                                  alice_fresh)))
  = Throw (Error (wait_message 60)).
Proof.
  destruct (issue_then_issue_again "alice@example.com" (steady 900 0)
              alice_fresh
              (snd (generateAndSendOtp "alice@example.com" (steady 900 0)
                                       alice_fresh))
              (mkOtpResult "OTP sent to email" 60) eq_refl eq_refl eq_refl)
    as (n & _ & H & _).
  cbn [steady clock] in H. destruct (H eq_refl) as [-> _]. reflexivity.
Defined.

Lemma rejected_mail_starts_cooldown_witness :
  outbox (snd (generateAndSendOtp "alice@example.com" (failing_at 2 900)
                                  alice_fresh)) = []
  /\ exists n,
       fst (generateAndSendOtp "alice@example.com" (failing_at 2 900)
              (snd (generateAndSendOtp "alice@example.com" (failing_at 2 900)
                                       alice_fresh)))
       = Throw (Error (wait_message n)).
Proof.
  destruct (rejected_mail_starts_cooldown "alice@example.com"
              (failing_at 2 900) alice_fresh
              (snd (generateAndSendOtp "alice@example.com" (failing_at 2 900)
                                       alice_fresh))
              (alice Unset Unset Unset) (Error "upstream")
              eq_refl eq_refl eq_refl eq_refl eq_refl eq_refl eq_refl eq_refl)
    as (_ & Ho & n & Hn & _).
  split; [exact Ho|]. exists n. exact Hn.
Defined.

Lemma verify_otp_without_code_witness :
  fst (verify_otp (request "bob@example.com" None JUndefined) (steady 900 0)
                  (snd (@register ToyBcrypt bob_registers (steady 900 0)
                          alice_fresh)))
  = json 200 "OTP verified successfully".
Proof.
  destruct (@verify_otp_without_code ToyBcrypt bob_registers
              (request "bob@example.com" None JUndefined) (steady 900 0)
              alice_fresh
              (snd (@register ToyBcrypt bob_registers (steady 900 0)
                      alice_fresh))) as [_ H].
  apply H; reflexivity.
Defined.

Lemma unique_identities_empty : unique_identities empty_world.
Proof. repeat split; constructor. Defined.

Lemma serve_keeps_identities_unique_witness :
  unique_identities
    (snd (@serve ToyBcrypt
            [(Register, bob_registers); (Register, bob_registers);
             (ForgotPassword, bob_logs_in); (ResetPassword, bob_logs_in)]
            (steady 900 0) empty_world)).
Proof.
  apply (@serve_keeps_identities_unique ToyBcrypt).
  exact unique_identities_empty.
Defined.

Lemma serve_keeps_otp_fields_together_witness :
  Forall otp_fields_together
    (users (snd (@serve ToyBcrypt
                   [(Register, bob_registers); (ForgotPassword, bob_logs_in);
                    (VerifyOtp, bob_logs_in)]
                   (steady 900 0) empty_world))).
Proof.
  apply (@serve_keeps_otp_fields_together ToyBcrypt). constructor.
Defined.

Lemma serve_keeps_emails_normalized_witness :
  Forall normalized_email
    (users (snd (@serve ToyBcrypt
                   [(Register, bob_registers); (ResetPassword, bob_logs_in)]
                   (steady 900 0) empty_world))).
Proof.
  apply (@serve_keeps_emails_normalized ToyBcrypt). constructor.
Defined.

Lemma serve_keeps_passwords_hashed_witness :
  Forall (@hashed_password ToyBcrypt)
    (users (snd (@serve ToyBcrypt
                   [(Register, bob_registers); (ResetPassword, bob_logs_in)]
                   (steady 900 0) empty_world))).
Proof.
  apply (@serve_keeps_passwords_hashed ToyBcrypt). constructor.
Defined.

Lemma app_leaves_other_identities_witness :
  lookup "alice@example.com"
    (users (snd (@app ToyBcrypt ResetPassword bob_logs_in (steady 900 0)
                   (snd (@register ToyBcrypt bob_registers (steady 900 0)
                           alice_fresh)))))
  = Some (alice Unset Unset Unset).
Proof.
  rewrite (@app_leaves_other_identities ToyBcrypt).
  - reflexivity.
  - repeat split; cbn; repeat constructor; cbn; try lia; intuition discriminate.
  - intros H. vm_compute in H. discriminate.
Defined.

Lemma reset_lifts_cooldown_witness :
  fst (generateAndSendOtp "alice@example.com" (steady 100 0) alice_after_issue)
  = Throw (Error (wait_message 60))
  /\ fst (generateAndSendOtp "alice@example.com" (steady 100 0)
            (snd (@reset_password ToyBcrypt
                    (request "alice@example.com" (Some "new") JUndefined)
                    (steady 100 0) alice_after_issue)))
     = Return (mkOtpResult "OTP sent to email" 60).
Proof.
  split; [reflexivity|].
  apply (@reset_lifts_cooldown ToyBcrypt
           (request "alice@example.com" (Some "new") JUndefined)
           (steady 100 0) alice_after_issue); reflexivity.
Defined.

Lemma legacy_register_created_iff_witness :
  status (fst (@Legacy.register ToyBcrypt
                 (body.mk (Some "Bob") (Some "bob") (Some "bob@example.com")
                          (Some "") (Some "2 Main St") (Some "pw") JUndefined)
                 (steady 900 0) empty_world)) = 400.
Proof.
  destruct (@legacy_register_created_iff ToyBcrypt
              (body.mk (Some "Bob") (Some "bob") (Some "bob@example.com")
                       (Some "") (Some "2 Main St") (Some "pw") JUndefined)
              (steady 900 0) empty_world) as [_ H].
  apply H. intros H201. vm_compute in H201. discriminate.
Defined.

Lemma legacy_serve_keeps_profiles_complete_witness :
  Forall complete_profile
    (users (snd (@LegacyServer.serve ToyBcrypt
                   [(LegacyServer.Register, bob_registers);
                    (LegacyServer.Login, bob_logs_in)]
                   (steady 900 0) empty_world))).
Proof.
  apply (@legacy_serve_keeps_profiles_complete ToyBcrypt).
  split; [exact unique_identities_empty|constructor].
Defined.

Lemma contact_all_stores_accepted_witness :
  snd (snd (contact_all [hello; blank; hello] (steady 900 0)
                        (empty_world, [])))
  = [hello; blank; hello].
Proof.
  destruct (contact_all_stores_accepted [hello; blank; hello] (steady 900 0)
              empty_world []) as (_ & _ & _ & _ & H).
  destruct H as [H _]; [reflexivity|exact H].
Defined.
